(** * License tasks of [tasks/go.py]

    A shallow embedding of the license-manifest tasks of [tasks/go.py]
    ([get_licenses_list], [generate_licenses], [lint_licenses] and the legacy
    [lint_licenses_old]) and the properties of the license reconciler.

    Conventions of the embedding:
    - a Python [str] is a [string]; characters are the code points below 256;
    - a task runs in a small state-and-exception monad [M] over a [World]
      (the files on disk, [sys.platform] and the lines printed so far); a
      path is the name of a file as the program spells it, and the
      directories of a world are those that hold its files;
    - text files are read and written as Python 3 does in text mode:
      universal newlines on reading, [os.linesep] on writing;
    - the invoke context [ctx] is a record of the outcomes of the external
      commands the tasks run; the commands do not change the files of the
      [World]. *)

From Stdlib Require Import Ascii ZArith Sorting.Sorted.
From stdpp Require Import base option list sorting strings gmap pretty.

Local Open Scope Z_scope.

(** ** Python string primitives *)

Module PyStr.

(** [len(s)] *)
Definition len (s : string) : Z := Z.of_nat (String.length s).

(** [s[k:]] for [0 <= k], dropping the first [k] characters. *)
Fixpoint drop (k : nat) (s : string) : string :=
  match k, s with
  | O, _ => s
  | S k', String _ s' => drop k' s'
  | S _, EmptyString => EmptyString
  end.

(** [s[k:]]; a negative [k] counts from the end, as Python slices do. *)
Definition slice_from (k : Z) (s : string) : string :=
  if k <? 0 then drop (Z.to_nat (Z.max 0 (len s + k))) s
  else drop (Z.to_nat k) s.

(** [s.find(sub)]: the lowest index where [sub] occurs in [s], or [-1]. *)
Definition find (sub s : string) : Z :=
  match String.index 0 sub s with
  | Some n => Z.of_nat n
  | None => -1
  end.

(** [sub in s] *)
Definition contains (sub s : string) : bool :=
  bool_decide (find sub s ≠ -1).

(** [s.startswith(p)] *)
Definition startswith (p s : string) : bool := String.prefix p s.

(** [s.split(sep)] for a one-character separator [sep]: every occurrence
    of [sep] ends a piece, so the result has one piece more than [s] has
    separators (empty pieces are kept, and [split] of the empty string is
    the list holding the empty string). *)
Fixpoint split (sep : ascii) (s : string) : list string :=
  match s with
  | EmptyString => [EmptyString]
  | String a s' =>
      if Ascii.eqb a sep then EmptyString :: split sep s'
      else match split sep s' with
           | piece :: rest => String a piece :: rest
           | [] => [String a EmptyString]
           end
  end.

(** [c.isspace()] for the code points below 256: the ASCII white space,
    the separators U+001C to U+001F, U+0085 and U+00A0. *)
Definition isspace (c : ascii) : bool :=
  match c with
  | "009" | "010" | "011" | "012" | "013"
  | "028" | "029" | "030" | "031"
  | " " | "133" | "160" => true
  | _ => false
  end%char.

(** [s.rstrip()]: [s] without its longest suffix of white space. *)
Fixpoint rstrip (s : string) : string :=
  match s with
  | EmptyString => EmptyString
  | String a s' =>
      match rstrip s' with
      | EmptyString => if isspace a then EmptyString else String a EmptyString
      | r => String a r
      end
  end.

(** The lines a text file yields when iterated: each line keeps its
    terminating newline; a last line without one is yielded as it is. *)
Fixpoint readlines (s : string) : list string :=
  match s with
  | EmptyString => []
  | String a s' =>
      if Ascii.eqb a "010" then String a EmptyString :: readlines s'
      else match readlines s' with
           | line :: rest => String a line :: rest
           | [] => [String a EmptyString]
           end
  end.

(** Universal newlines, as a file opened for reading in text mode
    translates them: [\r\n] and a lone [\r] are read as [\n]. *)
Fixpoint universal_newlines (s : string) : string :=
  match s with
  | EmptyString => EmptyString
  | String a s' =>
      if Ascii.eqb a "013" then
        String "010"
          match s' with
          | String b s'' =>
              if Ascii.eqb b "010" then universal_newlines s''
              else universal_newlines s'
          | EmptyString => EmptyString
          end
      else String a (universal_newlines s')
  end.

(** What a file opened for writing in text mode puts on disk for [s]:
    [\n] becomes [os.linesep], which is [\r\n] on Windows. *)
Fixpoint write_newlines (win32 : bool) (s : string) : string :=
  match s with
  | EmptyString => EmptyString
  | String a s' =>
      if win32 && Ascii.eqb a "010"
      then String "013" (String "010" (write_newlines win32 s'))
      else String a (write_newlines win32 s')
  end.

(** [sorted]: Python compares strings code point by code point, a proper
    prefix before its extensions, which is [String.le]. [list.sort] is
    a merge sort; over this total antisymmetric order every sorting
    algorithm returns the same list (see [sort_unique]). *)
Definition sort (l : list string) : list string := merge_sort String.le l.

End PyStr.

(** ** The world and the task monad *)

(** What a task can observe and change: the files on disk (path to
    content), [sys.platform], and the lines it has printed (oldest
    first). *)
Record World := mkWorld {
  files : gmap string string;
  platform : string;
  stdout : list string;
}.

(** The message of an [Exit]. The message of the legacy audit formats two
    Python sets, whose order of printing is not fixed; it is kept as the
    two sets. *)
Inductive exit_message :=
| NoMessage
| EmptyLicense (origin : string)
| Outdated (missing listed : gset string).

Inductive exn :=
| Exit (message : exit_message) (code : Z)
| UnexpectedExit
| IOError (path : string)
| StopIteration
| KeyError (key : string)
| TypeError
| AttributeError.

Inductive result (A : Type) :=
| Ret (a : A)
| Raise (e : exn).
Arguments Ret {A} a.
Arguments Raise {A} e.

Definition M (A : Type) : Type := World → World * result A.

Global Instance M_ret : MRet M := λ A a w, (w, Ret a).
Global Instance M_bind : MBind M := λ A B k m w,
  match m w with
  | (w', Ret a) => k a w'
  | (w', Raise e) => (w', Raise e)
  end.

Definition raise {A} (e : exn) : M A := λ w, (w, Raise e).

(** [print(line)] *)
Definition print (line : string) : M unit := λ w,
  (mkWorld (files w) (platform w) (stdout w ++ [line]), Ret ()).

(** [sys.platform] *)
Definition sys_platform : M string := λ w, (w, Ret (platform w)).

(** [open(path, 'r')] followed by reading the whole text. *)
Definition open_read (path : string) : M string := λ w,
  match files w !! path with
  | Some content => (w, Ret (PyStr.universal_newlines content))
  | None => (w, Raise (IOError path))
  end.

(** A separator of path components: the slash, and on Windows the
    backslash too. *)
Definition is_sep (win : bool) (a : ascii) : bool :=
  Ascii.eqb a "/" || (win && Ascii.eqb a "092").

(** A path cut at its last separator: the directory part, [None] for
    a plain name (which lies in the current directory), and the name that
    follows it. *)
Fixpoint split_path (win : bool) (path : string) : option string * string :=
  match path with
  | EmptyString => (None, EmptyString)
  | String a path' =>
      match split_path win path' with
      | (Some d, name) => (Some (String a d), name)
      | (None, name) =>
          if is_sep win a then (Some EmptyString, name)
          else (None, String a name)
      end
  end.

(** The file [path] lies in the directory [d] or below it: [path] is [d],
    a separator, and more. *)
Definition below (win : bool) (d path : string) : bool :=
  String.prefix d path &&
  match PyStr.drop (String.length d) path with
  | String a _ => is_sep win a
  | EmptyString => false
  end.

(** The directories of the world are those that hold its files: [d]
    exists when it is the current directory or its parent, or when some
    file of the world lies in it or below it. *)
Definition dir_exists (w : World) (d : string) : bool :=
  String.eqb d "." || String.eqb d ".." ||
  existsb (λ entry, below (bool_decide (platform w = "win32")) d entry.1)
          (map_to_list (files w)).

(** [open(path, 'w')] can create or truncate [path]: its last component
    names a file (it is not empty, [.] or [..]), and its directory part,
    when it has one, exists. *)
Definition can_create (w : World) (path : string) : bool :=
  match split_path (bool_decide (platform w = "win32")) path with
  | (d, name) =>
      negb (String.eqb name "" || String.eqb name "." || String.eqb name "..")
      && match d with
         | None => true
         | Some d => dir_exists w d
         end
  end.

(** [open(path, 'w')]: the file is created or truncated at once; for a
    path that cannot be created, [open] raises (an [IOError]: no such
    file or directory) and nothing is written. *)
Definition open_write (path : string) : M unit := λ w,
  if can_create w path then
    (mkWorld (<[path := ""]> (files w)) (platform w) (stdout w), Ret ())
  else (w, Raise (IOError path)).

(** [f.write(s)] on a file opened by [open_write]. The file object is
    closed, and its buffer flushed, when the [with] block is left, by its
    end or by an exception: the model writes through. *)
Definition write (path s : string) : M unit := λ w,
  let old := default "" (files w !! path) in
  let new := PyStr.write_newlines (bool_decide (platform w = "win32")) s in
  (mkWorld (<[path := old +:+ new]> (files w)) (platform w) (stdout w),
   Ret ()).

(** [for x in l: body(x)] *)
Fixpoint for_ {A} (l : list A) (body : A → M unit) : M unit :=
  match l with
  | [] => mret ()
  | x :: l' => body x ;; for_ l' body
  end.

(** A loop that updates a local variable [acc]. *)
Fixpoint for_acc {A B} (l : list A) (acc : B) (body : B → A → M B) : M B :=
  match l with
  | [] => mret acc
  | x :: l' => acc' ← body acc x; for_acc l' acc' body
  end.

Definition when (b : bool) (m : M unit) : M unit :=
  if b then m else mret ().

(** ** The invoke context *)

(** The result object of [ctx.run]; the tasks read only its [stderr]. *)
Record RunResult := mkRunResult { stderr : string }.

(** The context is the outcome of each external command: [ctx.run(cmd)]
    returns a result or raises [UnexpectedExit]. [get_gopath] is a helper
    of [tasks/utils.py]; its outcome is a field. *)
Record Ctx := mkCtx {
  gopath : result string;
  run_outcome : string → result RunResult;
}.

Definition get_gopath (ctx : Ctx) : M string := λ w, (w, gopath ctx).
Definition run (ctx : Ctx) (cmd : string) : M RunResult :=
  λ w, (w, run_outcome ctx cmd).

(** ** [get_licenses_list] *)

Definition dquote : ascii := "034"%char.
Definition newline : ascii := "010"%char.

(** ['msg="Found License"'] *)
Definition marker : string :=
  Eval cbv in "msg=" +:+ String dquote ("Found License" +:+ String dquote "").

(** ['core,"github.com/frapposelli/wwhrd",MIT'] *)
Definition bootstrap : string :=
  Eval cbv in
    "core," +:+ String dquote ("github.com/frapposelli/wwhrd" +:+
                               String dquote ",MIT").

(** ["core,{},{}".format(package, license)] *)
Definition format_entry (package license : string) : string :=
  "core," +:+ package +:+ "," +:+ license.

(** The local variables of the loop over the values of one line. *)
Record scan := mkScan {
  license : string;
  package : string;
  licenses : list string;
}.

(** The body of [for val in line[...].split(" ")]. *)
Definition scan_val (st : scan) (val : string) : scan :=
  if PyStr.startswith "license=" val then
    mkScan (PyStr.slice_from (PyStr.len "license=") val) (package st)
           (licenses st)
  else if PyStr.startswith "package=" val then
    let package := PyStr.slice_from (PyStr.len "package=") val in
    mkScan (license st) package
           (licenses st ++ [format_entry package (license st)])
  else st.

(** The body of [for line in result.stderr.split("\n")]. *)
Definition scan_line (licenses0 : list string) (line : string) : list string :=
  let index := PyStr.find marker line in
  if index =? -1 then licenses0
  else
    licenses
      (foldl scan_val (mkScan "" "" licenses0)
         (PyStr.split " " (PyStr.slice_from (index + PyStr.len marker) line))).

(** The list built from the captured [stderr], before it is sorted. *)
Definition scan_stderr (err : string) : list string :=
  if bool_decide (err ≠ "")
  then foldl scan_line [bootstrap] (PyStr.split newline err)
  else [bootstrap].

Definition get_licenses_list (ctx : Ctx) : M (list string) :=
  gp ← get_gopath ctx;
  result ← run ctx (gp +:+ "/bin/wwhrd list --no-color");
  mret (PyStr.sort (scan_stderr (stderr result))).

(** ** [lint_licenses] and [generate_licenses] *)

Definition header : string := "Component,Origin,License".

(** [[ele for ele in new_licenses if ele not in licenses]] *)
Definition removed_licenses (licenses new_licenses : list string)
  : list string :=
  filter (λ ele, ele ∉ licenses) new_licenses.

(** [[ele for ele in licenses if ele not in new_licenses]] *)
Definition added_licenses (licenses new_licenses : list string)
  : list string :=
  filter (λ ele, ele ∉ new_licenses) licenses.

(** The hack for Windows: the recorded rows that contain an ignored
    package are dropped before the comparison. *)
Definition ignore_licenses : list string := ["github.com/shirou/gopsutil"].

Definition hack_windows (verbose : bool) (licenses : list string)
  : M (list string) :=
  to_removed ←
    for_acc ignore_licenses [] (λ to_removed ignore,
      for_acc licenses to_removed (λ to_removed license,
        if PyStr.contains ignore license then
          when verbose (print ("[hack-windows] ignore: " +:+ license)) ;;
          mret (to_removed ++ [license])
        else mret to_removed));
  mret (filter (λ x, x ∉ to_removed) licenses).

(** The rows of the recorded manifest: the first line is skipped by
    [next(f)], every other line is [rstrip]ped. *)
Definition read_licenses (file : string) : M (list string) :=
  text ← open_read file;
  match PyStr.readlines text with
  | [] => raise StopIteration
  | _ :: lines => mret (PyStr.rstrip <$> lines)
  end.

Definition lint_licenses (ctx : Ctx) (verbose : bool) : M unit :=
  print "Verify licenses" ;;
  licenses ← read_licenses "LICENSE-3rdparty.csv";
  new_licenses ← get_licenses_list ctx;
  plat ← sys_platform;
  licenses ← (if bool_decide (plat = "win32")
              then hack_windows verbose licenses
              else mret licenses);
  let removed := removed_licenses licenses new_licenses in
  for_ removed (λ license, print ("+ " +:+ license)) ;;
  let added := added_licenses licenses new_licenses in
  for_ added (λ license, print ("- " +:+ license)) ;;
  if 0 <? Z.of_nat (length removed) + Z.of_nat (length added) then
    print "licenses are not up-to-date" ;;
    raise (Exit NoMessage 1)
  else
    print "licenses ok".

(** The loop of [generate_licenses] over the rows to write. *)
Definition write_rows (filename : string) (verbose : bool)
    (new_licenses : list string) : M unit :=
  for_ new_licenses (λ license,
    when verbose (print license) ;;
    write filename (license +:+ String newline "")).

Definition generate_licenses (ctx : Ctx) (filename : string) (verbose : bool)
  : M unit :=
  open_write filename ;;
  write filename (header +:+ String newline "") ;;
  new_licenses ← get_licenses_list ctx;
  write_rows filename verbose new_licenses ;;
  print "licenses files generated".

(** ** [lint_licenses_old] *)

(** A row of [csv.DictReader]: a field read from the line is [Some] of its
    text; a column the line is too short for holds [None]. *)
Definition Row : Type := gmap string (option string).

Inductive field_value :=
| Missing
| IsNone
| Str (s : string).

(** [entry[key]] *)
Definition getitem (entry : Row) (key : string) : field_value :=
  match entry !! key with
  | None => Missing
  | Some None => IsNone
  | Some (Some s) => Str s
  end.

(** [NON_GO_DEPS] *)
Definition NON_GO_DEPS : gset string :=
  {[ "github.com/codemirror/CodeMirror";
     "github.com/FortAwesome/Font-Awesome";
     "github.com/jquery/jquery" ]}.

(** The loop over the lines of [go.sum]. *)
Definition read_go_deps (lines : list string) : gset string :=
  foldl (λ go_deps line,
           let gopkg := PyStr.split " " line in
           if bool_decide (length gopkg ≠ 3%nat) then go_deps
           else {[ default "" (head gopkg) ]} ∪ go_deps)
        ∅ lines.

(** ['/'.join(origin.split("/")[0:3])] *)
Definition dep_name (origin : string) : string :=
  String.concat "/" (take 3 (PyStr.split "/" origin)).

Section Legacy.

(** [csv.DictReader] of the standard library, as the rows it yields for
    the text of a file. *)
Variable DictReader : string → list Row.

(** The body of [for entry in licenses], with [license_deps] as the
    updated variable. *)
Definition check_entry (license_deps : gset string) (entry : Row)
  : M (gset string) :=
  match getitem entry "License" with
  | Missing => raise (KeyError "License")
  | IsNone => raise TypeError
  | Str lic =>
      if PyStr.len lic =? 0 then
        match getitem entry "Origin" with
        | Missing => raise (KeyError "Origin")
        | IsNone => raise (Exit (EmptyLicense "None") 1)
        | Str origin => raise (Exit (EmptyLicense origin) 1)
        end
      else
        match getitem entry "Origin" with
        | Missing => raise (KeyError "Origin")
        | IsNone => raise AttributeError
        | Str origin =>
            print (dep_name origin) ;;
            mret ({[ dep_name origin ]} ∪ license_deps)
        end
  end.

Definition lint_licenses_old (ctx : Ctx) : M unit :=
  gosum ← open_read "go.sum";
  let go_deps := read_go_deps (PyStr.readlines gosum) in
  let deps := go_deps ∪ NON_GO_DEPS in
  text ← open_read "LICENSE-3rdparty.csv";
  license_deps ← for_acc (DictReader text) ∅ check_entry;
  if bool_decide (deps ≠ license_deps) then
    raise (Exit (Outdated (deps ∖ license_deps) (license_deps ∖ deps)) 1)
  else mret ().

End Legacy.

(** * Definitions used in the statements *)

(** ** Worlds *)

(** The world after [lines] have been printed. *)
Definition printed (lines : list string) (w : World) : World :=
  mkWorld (files w) (platform w) (stdout w ++ lines).

(** ** Tokens of a line and their pairing *)

Definition is_license (val : string) : bool := PyStr.startswith "license=" val.
Definition is_package (val : string) : bool := PyStr.startswith "package=" val.

(** What follows the eight characters of [license=] or [package=]. *)
Definition token_value (val : string) : string := PyStr.slice_from 8 val.

(** The values of a marker line: the pieces, between single spaces, of
    what follows the first occurrence of the marker. *)
Definition line_tokens (line : string) : list string :=
  PyStr.split " "
    (PyStr.slice_from (PyStr.find marker line + PyStr.len marker) line).

(** The pairing in words: the license of an entry is the value of the last
    [license=] token among the [earlier] tokens of the line, and the empty
    string when there is none. *)
Definition most_recent_license (earlier : list string) : string :=
  match last (filter (λ val, is_license val = true) earlier) with
  | Some val => token_value val
  | None => ""
  end.

(** One entry for each [package=] token, in the order of the tokens. *)
Definition paired_entries (vals : list string) : list string :=
  mjoin (imap (λ i val,
                 if is_package val then
                   [format_entry (token_value val)
                                 (most_recent_license (take i vals))]
                 else [])
              vals).

(** The entries one line of the output adds. *)
Definition line_entries (line : string) : list string :=
  if PyStr.find marker line =? -1 then []
  else paired_entries (line_tokens line).

(** The loop over the values, by recursion on the values left. *)
Fixpoint pairs_from (lic : string) (vals : list string) : list string :=
  match vals with
  | [] => []
  | val :: vals' =>
      if is_license val then pairs_from (token_value val) vals'
      else if is_package val then
        format_entry (token_value val) lic :: pairs_from lic vals'
      else pairs_from lic vals'
  end.

(** ** Discovery *)

Definition wwhrd_command (gp : string) : string :=
  gp +:+ "/bin/wwhrd list --no-color".

(** The outcome of [get_licenses_list], which neither reads nor changes
    the world. *)
Definition discovery (ctx : Ctx) : result (list string) :=
  match gopath ctx with
  | Ret gp =>
      match run_outcome ctx (wwhrd_command gp) with
      | Ret res => Ret (PyStr.sort (scan_stderr (stderr res)))
      | Raise e => Raise e
      end
  | Raise e => Raise e
  end.

(** ** The hack for Windows *)

(** The recorded rows the hack for Windows takes out. *)
Definition to_removed (licenses : list string) : list string :=
  filter (λ license, PyStr.contains "github.com/shirou/gopsutil" license = true)
         licenses.

(** The recorded rows that take part in the comparison on [plat]. *)
Definition compared_licenses (plat : string) (licenses : list string)
  : list string :=
  if bool_decide (plat = "win32")
  then filter (λ x, x ∉ to_removed licenses) licenses
  else licenses.

(** What the hack prints. *)
Definition hack_log (plat : string) (verbose : bool) (licenses : list string)
  : list string :=
  if bool_decide (plat = "win32") && verbose
  then (λ license, "[hack-windows] ignore: " +:+ license) <$> to_removed licenses
  else [].

(** ** The text of a manifest *)

(** The rows as [generate_licenses] writes them, one [write] of
    ['{}\n'.format(license)] for each. *)
Definition rows_text (rows : list string) : string :=
  foldr (λ row text, row +:+ String newline text) "" rows.

(** The header row followed by the rows. *)
Definition manifest_text (rows : list string) : string :=
  header +:+ String newline (rows_text rows).

Fixpoint has_char (c : ascii) (s : string) : bool :=
  match s with
  | EmptyString => false
  | String a s' => Ascii.eqb a c || has_char c s'
  end.


Fixpoint all_space (s : string) : bool :=
  match s with
  | EmptyString => true
  | String a s' => PyStr.isspace a && all_space s'
  end.


Definition win32 (w : World) : bool := bool_decide (platform w = "win32").



(** ** Rows of the legacy audit *)

(** The entry has its [License] and [Origin] columns, as every row of a
    manifest with the three columns of the header has. *)
Definition well_formed (entry : Row) : Prop :=
  ∃ lic origin,
    getitem entry "License" = Str lic ∧ getitem entry "Origin" = Str origin.

Definition empty_license (entry : Row) : Prop :=
  getitem entry "License" = Str "".

(** ** Inputs of the examples *)

Definition manifest_file : string := "LICENSE-3rdparty.csv".

(** A world whose only file is the manifest with the given rows. *)
Definition recorded (rows : list string) : World :=
  mkWorld {[ manifest_file := manifest_text rows ]} "linux" [].

Definition empty_world : World := mkWorld ∅ "linux" [].

(** Discovery succeeds and the tool writes [err] on its error stream. *)
Definition plain_ctx (err : string) : Ctx :=
  mkCtx (Ret "/go") (λ _, Ret (mkRunResult err)).

(** The discovery tool exits with an error. *)
Definition failing_ctx : Ctx := mkCtx (Ret "/go") (λ _, Raise UnexpectedExit).

(** A line as the tool logs it, the fields in alphabetical order. *)
Definition found_license_line : string :=
  marker +:+ " license=MIT package=github.com/foo".

(** The line of scenario 1, the package before the license. *)
Definition scenario_1_line : string :=
  marker +:+ " package=github.com/foo license=MIT".

Definition two_packages_line : string :=
  marker +:+ " package=a license=MIT package=b license=X".


(** Scenario 2: the recorded manifest holds A and B, discovery finds B
    and C. *)
Definition row_A : string := "core,github.com/bar,Apache-2.0".
Definition row_C : string := "core,github.com/foo,MIT".

(** A reader for texts without quoting: the first line names the columns,
    every later non-empty line is split at its commas. It stands for
    [csv.DictReader] in the example below. *)
Definition comma_reader (text : string) : list Row :=
  match PyStr.split newline text with
  | [] => []
  | first :: lines =>
      (λ line, list_to_map (zip (PyStr.split "," first)
                                (Some <$> PyStr.split "," line)))
      <$> filter (λ line, line ≠ "") lines
  end.

Definition legacy_world : World :=
  mkWorld {[ "go.sum" := "";
             manifest_file :=
               manifest_text ["core,github.com/bar,MIT"; "core,github.com/foo,"] ]}
          "linux" [].

(** ** Definitions used in the statements on the audit *)

(** The package the hack for Windows ignores. *)
Definition gopsutil : string := "github.com/shirou/gopsutil".

(** The world in which the manifest holds [text]. *)
Definition with_manifest (text : string) (w : World) : World :=
  mkWorld (<[ "LICENSE-3rdparty.csv" := text ]> (files w)) (platform w) (stdout w).

(** A line of the discovery tool on a package of gopsutil. *)
Definition gopsutil_line : string :=
  marker +:+ " license=BSD-3-Clause package=github.com/shirou/gopsutil/cpu".

(** Outputs and worlds of further examples. *)
Definition repeated_output : string :=
  found_license_line +:+ String newline found_license_line.

Definition two_lines_output : string :=
  found_license_line +:+ String newline gopsutil_line.

Definition two_lines_swapped : string :=
  gopsutil_line +:+ String newline found_license_line.

Definition non_go_manifest : string :=
  manifest_text
    [ "core,github.com/codemirror/CodeMirror/lib,MIT";
      "core,github.com/FortAwesome/Font-Awesome,OFL-1.1";
      "core,github.com/jquery/jquery,MIT" ].

Definition non_go_world : World :=
  mkWorld {[ "go.sum" := ""; manifest_file := non_go_manifest ]} "linux" [].

(** * The linter tasks *)

(** [targets]: a string of comma separated tokens when the task is called
    from the command line, a list otherwise. *)
Inductive Targets :=
| TargetsStr (s : string)
| TargetsList (l : list string).

(** [if isinstance(targets, basestring): targets = targets.split(',')] *)
Definition target_list (targets : Targets) : list string :=
  match targets with
  | TargetsStr s => PyStr.split "," s
  | TargetsList l => l
  end.

(** [sep.join(l)] *)
Definition join (sep : string) (l : list string) : string :=
  String.concat sep l.

(** [s.lstrip()] *)
Fixpoint lstrip (s : string) : string :=
  match s with
  | EmptyString => EmptyString
  | String a s' => if PyStr.isspace a then lstrip s' else s
  end.

(** [s.strip()] *)
Definition strip (s : string) : string := lstrip (PyStr.rstrip s).

(** The context of the linter tasks: [ctx.run(cmd)] returns a result, of
    which the tasks read [stdout], or raises. *)
Record Shell := mkShell { stdout_of : string → result string }.

Definition run_stdout (sh : Shell) (cmd : string) : M string :=
  λ w, (w, stdout_of sh cmd).

(** [MODULE_WHITELIST] *)
Definition MODULE_WHITELIST : list string :=
  [ "doflare.go"; "iostats_pdh_windows.go"; "iostats_wmi_windows.go";
    "pdh.go"; "pdh_amd64.go"; "pdh_386.go"; "pdhhelper.go"; "shutil.go";
    "tailer_windows.go"; "winsec.go"; "allprocesses_windows.go";
    "allprocesses_windows_test.go"; "adapters.go"; "routes.go";
    "agent.pb.go"; "bbscache_test.go" ].

(** [os.sep]: the path module is [ntpath] exactly when [sys.platform] is
    [win32]. *)
Definition os_sep (plat : string) : string :=
  if bool_decide (plat = "win32") then String "092" "" else "/".

(** [MISSPELL_IGNORED_TARGETS], each an [os.path.join] of plain names. *)
Definition MISSPELL_IGNORED_TARGETS (plat : string) : list string :=
  [ join (os_sep plat) ["cmd"; "agent"; "dist"; "checks"; "prometheus_check"];
    join (os_sep plat) ["cmd"; "agent"; "gui"; "views"; "private"];
    join (os_sep plat) ["pkg"; "collector"; "corechecks"; "system"; "testfiles"];
    join (os_sep plat) ["pkg"; "ebpf"; "testdata"] ].

(** The body of the loop of [misspell] over the lines of the output. *)
Definition misspell_line (plat : string) (legit_misspells : list string)
    (found_misspell : string) : list string :=
  if 0 <? PyStr.len (strip found_misspell) then
    if negb (existsb (λ ignored_target,
                        PyStr.contains ignored_target found_misspell)
                     (MISSPELL_IGNORED_TARGETS plat))
    then legit_misspells ++ [found_misspell]
    else legit_misspells
  else legit_misspells.

Definition misspell (sh : Shell) (targets : Targets) : M unit :=
  let targets := target_list targets in
  out ← run_stdout sh ("misspell " +:+ join " " targets);
  plat ← sys_platform;
  let legit_misspells :=
    foldl (misspell_line plat) [] (PyStr.split newline out) in
  if 0 <? Z.of_nat (length legit_misspells) then
    print ("Misspell issues found:" +:+ String newline
             (join (String newline "") legit_misspells)) ;;
    raise (Exit NoMessage 2)
  else print "misspell found no issues".

Definition ineffassign (sh : Shell) (targets : Targets) : M unit :=
  let targets := target_list targets in
  run_stdout sh ("ineffassign " +:+ join " " targets) ;;
  print "ineffassign found no issues".

Definition cyclo (sh : Shell) (targets : Targets) (limit : Z) : M unit :=
  let targets := target_list targets in
  run_stdout sh ("gocyclo -over " +:+ pretty limit +:+ " " +:+ join " " targets) ;;
  print "gocyclo found no issues".

Section Linters.

(** The order in which Python iterates over a set. *)
Variable set_iter : gset string → list string.

(** [os.path.basename] *)
Variable basename : string → string.

Definition fmt (sh : Shell) (targets : Targets) (fail_on_fmt : bool) : M unit :=
  let targets := target_list targets in
  out ← run_stdout sh ("gofmt -l -w -s " +:+ join " " targets);
  (if bool_decide (out ≠ "") then
     let files : gset string :=
       list_to_set (filter (λ x, x ≠ "") (PyStr.split newline out)) in
     print ("Reformatted the following files: " +:+ join "," (set_iter files)) ;;
     if fail_on_fmt then
       print "Code was not properly formatted, exiting..." ;;
       raise (Exit NoMessage 1)
     else mret ()
   else mret ()) ;;
  print "gofmt found no issues".

(** The local variables of the loop of [lint] over the lines. *)
Record lint_scan := mkLintScan {
  lint_files : list string;
  skipped_files : gset string;
}.

(** The body of [for line in (out for out in ... if out)]. *)
Definition lint_line (st : lint_scan) (line : string) : lint_scan :=
  let fname := basename (default "" (head (PyStr.split ":" line))) in
  if bool_decide (fname ∈ MODULE_WHITELIST) then
    mkLintScan (lint_files st) ({[ fname ]} ∪ skipped_files st)
  else mkLintScan (lint_files st ++ [fname]) (skipped_files st).

Definition lint (sh : Shell) (targets : Targets) : M unit :=
  let targets := target_list targets in
  let targets_list := (λ t, t +:+ "/...") <$> targets in
  out ← run_stdout sh ("golint " +:+ join " " targets_list);
  (if bool_decide (out ≠ "") then
     let st := foldl lint_line (mkLintScan [] ∅)
                 (filter (λ o, o ≠ "") (PyStr.split newline out)) in
     (if bool_decide (lint_files st ≠ []) then
        print ("Linting issues found in " +:+ pretty (length (lint_files st))
               +:+ " files.") ;;
        raise (Exit NoMessage 1)
      else mret ()) ;;
     if bool_decide (skipped_files st ≠ ∅) then
       for_ (set_iter (skipped_files st)) (λ skipped,
         print ("Allowed errors in whitelisted file " +:+ skipped))
     else mret ()
   else mret ()) ;;
  print "golint found no issues".

End Linters.

(** ** Definitions used in the statements on the linter tasks *)

(** The file a line of the output of [golint] names: the base name of
    what comes before the first colon. *)
Definition lint_fname (basename : string → string) (line : string) : string :=
  basename (default "" (head (PyStr.split ":" line))).

(** The files with issues that [lint] counts: one for each line of the
    output that is not empty and names a file outside the whitelist. *)
Definition lint_offending (basename : string → string) (out : string)
  : list string :=
  filter (λ fname, fname ∉ MODULE_WHITELIST)
         (lint_fname basename
            <$> filter (λ o, o ≠ "") (PyStr.split newline out)).

(** A line of the output of [misspell] that counts: it holds a character
    that is not white space, and none of the ignored paths. *)
Definition misspell_legit (plat : string) (line : string) : Prop :=
  all_space line = false
  ∧ Forall (λ ignored_target, PyStr.contains ignored_target line = false)
           (MISSPELL_IGNORED_TARGETS plat).

Global Instance misspell_legit_dec plat line : Decision (misspell_legit plat line).
Proof. unfold misspell_legit. apply _. Defined.

(** ** Inputs of the examples of the linter tasks *)

(** [posixpath.basename]: what follows the last slash. *)
Definition posix_basename (p : string) : string :=
  default "" (last (PyStr.split "/" p)).

(** A shell whose every command succeeds and writes [out]. *)
Definition plain_shell (out : string) : Shell := mkShell (λ _, Ret out).

(** An output of [golint]: two lines on one file, one on a whitelisted
    file. *)
Definition golint_output : string :=
  "pkg/a/b.go:12:1: exported" +:+ String newline
    ("pkg/x/pdh.go:1:1: comment" +:+ String newline
       ("pkg/a/b.go:13:1: exported" +:+ String newline "")).

(** * Properties *)

(** ** Python string primitives on examples *)

Example split_ex :
  PyStr.split " " " a  b" = [""; "a"; ""; "b"].
Proof. reflexivity. Qed.

Example rstrip_ex : PyStr.rstrip (" a b " +:+ String "010" "") = " a b".
Proof. reflexivity. Qed.

Example readlines_ex :
  PyStr.readlines (String "a" (String "010" (String "010" "b")))
  = [String "a" (String "010" ""); String "010" ""; "b"].
Proof. reflexivity. Qed.

Example find_ex : PyStr.find "lo" "hello" = 3 ∧ PyStr.find "x" "hello" = -1.
Proof. split; reflexivity. Qed.

(** [find] returns the first place where [sub] occurs, and [-1] when
    it occurs nowhere. *)
Lemma find_first (sub s : string) :
  sub ≠ "" →
  (∀ n, PyStr.find sub s = Z.of_nat n →
     String.substring n (String.length sub) s = sub
     ∧ ∀ k, (k < n)%nat → String.substring k (String.length sub) s ≠ sub)
  ∧ (PyStr.find sub s = -1 →
     ∀ k, String.substring k (String.length sub) s ≠ sub).
Proof.
  unfold PyStr.find. intros Hsub.
  destruct (String.index 0 sub s) as [m|] eqn:E; split.
  - intros n ->%Nat2Z.inj. split.
    + by apply (String.index_correct1 0).
    + intros k Hk. apply (String.index_correct2 0 n sub s E); lia.
  - lia.
  - lia.
  - intros _ k. apply (String.index_correct3 0 k sub s E Hsub). lia.
Qed.

Example sort_ex : PyStr.sort ["b"; "a,"; "a"; "B"] = ["B"; "a"; "a,"; "b"].
Proof. vm_compute. reflexivity. Qed.

(** ** Running a task *)

Lemma bind_run {A B} (m : M A) (k : A → M B) (w : World) :
  (m ≫= k) w =
  match m w with
  | (w', Ret a) => k a w'
  | (w', Raise e) => (w', Raise e)
  end.
Proof. reflexivity. Qed.

Lemma bind_ret {A B} (m : M A) (k : A → M B) (w w' : World) (a : A) :
  m w = (w', Ret a) → (m ≫= k) w = k a w'.
Proof. intros H. rewrite bind_run, H. reflexivity. Qed.

Lemma bind_raise {A B} (m : M A) (k : A → M B) (w w' : World) (e : exn) :
  m w = (w', Raise e) → (m ≫= k) w = (w', Raise e).
Proof. intros H. rewrite bind_run, H. reflexivity. Qed.

Lemma printed_nil w : printed [] w = w.
Proof. destruct w. unfold printed. simpl. by rewrite app_nil_r. Qed.

Lemma printed_printed l1 l2 w : printed l2 (printed l1 w) = printed (l1 ++ l2) w.
Proof. unfold printed. simpl. by rewrite app_assoc. Qed.

Lemma print_run line w : print line w = (printed [line] w, Ret ()).
Proof. reflexivity. Qed.

Lemma for_print {A} (f : A → string) (l : list A) w :
  for_ l (λ x, print (f x)) w = (printed (f <$> l) w, Ret ()).
Proof.
  revert w. induction l as [|x l IH]; intros w; simpl.
  - by rewrite printed_nil.
  - rewrite bind_run, print_run, IH, printed_printed. reflexivity.
Qed.

(** ** The parser of the discovery output *)

Lemma license_not_package val : is_license val = true → is_package val = false.
Proof.
  unfold is_license, is_package, PyStr.startswith.
  destruct val as [|[[] [] [] [] [] [] [] []] val]; intros H;
    first [reflexivity | exfalso; revert H; by lazy].
Qed.

Lemma foldl_scan_val vals lic pkg acc :
  licenses (foldl scan_val (mkScan lic pkg acc) vals) = acc ++ pairs_from lic vals.
Proof.
  revert lic pkg acc. induction vals as [|val vals IH]; intros lic pkg acc; simpl.
  - by rewrite app_nil_r.
  - unfold scan_val at 2. fold (is_license val). fold (is_package val).
    destruct (is_license val); simpl.
    + apply IH.
    + destruct (is_package val); simpl.
      * rewrite IH, <- app_assoc. reflexivity.
      * apply IH.
Qed.

Lemma most_recent_license_snoc pre val :
  most_recent_license (pre ++ [val]) =
  if is_license val then token_value val else most_recent_license pre.
Proof.
  unfold most_recent_license. rewrite filter_app.
  destruct (is_license val) eqn:E.
  - rewrite (filter_cons_True _ val []) by done. simpl.
    rewrite filter_nil. by rewrite last_snoc.
  - rewrite (filter_cons_False _ val []) by (rewrite E; done).
    rewrite filter_nil, app_nil_r. reflexivity.
Qed.

Lemma pairs_from_most_recent vals pre :
  pairs_from (most_recent_license pre) vals =
  mjoin (imap (λ i val,
                 if is_package val then
                   [format_entry (token_value val)
                                 (most_recent_license (pre ++ take i vals))]
                 else [])
              vals).
Proof.
  revert pre. induction vals as [|val vals IH]; intros pre; [done|].
  rewrite imap_cons. simpl pairs_from. simpl take. rewrite app_nil_r.
  assert (Hrest : ∀ lic, lic = most_recent_license (pre ++ [val]) →
    pairs_from lic vals =
    mjoin (imap ((λ i v,
                   if is_package v then
                     [format_entry (token_value v)
                        (most_recent_license (pre ++ take i (val :: vals)))]
                   else []) ∘ S) vals)).
  { intros lic ->. rewrite IH. f_equal. apply imap_ext. intros i v _. simpl.
    by rewrite <- app_assoc. }
  destruct (is_license val) eqn:El.
  - rewrite (license_not_package _ El). simpl.
    apply Hrest. by rewrite most_recent_license_snoc, El.
  - destruct (is_package val); simpl; [f_equal|];
      apply Hrest; by rewrite most_recent_license_snoc, El.
Qed.

Lemma pairs_from_paired vals : pairs_from "" vals = paired_entries vals.
Proof. apply (pairs_from_most_recent vals []). Qed.

Lemma scan_line_app licenses0 line :
  scan_line licenses0 line = licenses0 ++ line_entries line.
Proof.
  unfold scan_line, line_entries.
  destruct (PyStr.find marker line =? -1).
  - by rewrite app_nil_r.
  - rewrite foldl_scan_val, pairs_from_paired. reflexivity.
Qed.

Lemma foldl_scan_line lines licenses0 :
  foldl scan_line licenses0 lines = licenses0 ++ (lines ≫= line_entries).
Proof.
  revert licenses0. induction lines as [|line lines IH]; intros licenses0; simpl.
  - by rewrite app_nil_r.
  - rewrite IH, scan_line_app, <- app_assoc. reflexivity.
Qed.

Lemma scan_stderr_eq err :
  scan_stderr err = bootstrap :: (PyStr.split newline err ≫= line_entries).
Proof.
  unfold scan_stderr. case_bool_decide as H.
  - apply foldl_scan_line.
  - subst err. reflexivity.
Qed.

Lemma is_license_token lic : is_license ("license=" +:+ lic) = true.
Proof. by destruct lic. Qed.

Lemma is_package_token pkg : is_package ("package=" +:+ pkg) = true.
Proof. by destruct pkg. Qed.

Lemma length_pairs_from lic vals :
  length (pairs_from lic vals) = length (filter (λ val, is_package val = true) vals).
Proof.
  revert lic. induction vals as [|val vals IH]; intros lic; [done|]. simpl.
  destruct (is_license val) eqn:El.
  - rewrite filter_cons_False by (rewrite (license_not_package _ El); done).
    apply IH.
  - destruct (is_package val) eqn:Ep.
    + rewrite filter_cons_True by done. simpl. by rewrite IH.
    + rewrite filter_cons_False by (rewrite Ep; done). apply IH.
Qed.

Lemma filter_license_none vals :
  Forall (λ val, is_license val = false) vals →
  filter (λ val, is_license val = true) vals = [].
Proof.
  induction 1 as [|val vals Hval _ IH]; [done|].
  rewrite filter_cons_False by (rewrite Hval; done). exact IH.
Qed.

Lemma most_recent_license_none earlier :
  Forall (λ val, is_license val = false) earlier →
  most_recent_license earlier = "".
Proof.
  intros H. unfold most_recent_license. by rewrite filter_license_none.
Qed.

Lemma elem_of_paired_entries vals i val :
  vals !! i = Some val → is_package val = true →
  format_entry (token_value val) (most_recent_license (take i vals))
  ∈ paired_entries vals.
Proof.
  intros Hi Hp. unfold paired_entries. apply list_elem_of_join.
  eexists. split; [|apply (elem_of_lookup_imap_2 _ _ _ _ Hi)].
  simpl. rewrite Hp. apply list_elem_of_singleton. reflexivity.
Qed.

(** C10: on a marker line the parser emits one entry for each [package=]
    token, in order, pairing it with the value of the most recent
    [license=] token among the tokens before it on that line; with no
    [license=] token before it, the license field is the empty string; a
    line whose tokens hold no [package=] token adds no entry, whatever
    [license=] tokens it holds. *)
Theorem scan_line_pairs_tokens (licenses0 : list string) (line : string) :
  scan_line licenses0 line =
    (if PyStr.find marker line =? -1 then licenses0
     else licenses0 ++ paired_entries (line_tokens line))
  ∧ length (paired_entries (line_tokens line)) =
      length (filter (λ val, is_package val = true) (line_tokens line))
  ∧ (∀ i val, line_tokens line !! i = Some val → is_package val = true →
       Forall (λ v, is_license v = false) (take i (line_tokens line)) →
       format_entry (token_value val) "" ∈ paired_entries (line_tokens line))
  ∧ (Forall (λ val, is_package val = false) (line_tokens line) →
       paired_entries (line_tokens line) = []).
Proof.
  split; [|split; [|split]].
  - rewrite scan_line_app. unfold line_entries.
    destruct (PyStr.find marker line =? -1); [by rewrite app_nil_r | done].
  - rewrite <- pairs_from_paired. apply length_pairs_from.
  - intros i val Hi Hp Hnone.
    rewrite <- (most_recent_license_none _ Hnone).
    by apply elem_of_paired_entries.
  - intros Hnone. apply nil_length_inv.
    rewrite <- pairs_from_paired, length_pairs_from.
    induction Hnone as [|val vals Hval _ IH]; [done|].
    rewrite filter_cons_False by (rewrite Hval; done). exact IH.
Qed.

Lemma scan_line_pairs_tokens_witness :
  scan_line [bootstrap] two_packages_line
  = [bootstrap; "core,a,"; "core,b,MIT"]
  ∧ format_entry (token_value "package=a") ""
    ∈ paired_entries (line_tokens two_packages_line)
  ∧ paired_entries (line_tokens (marker +:+ " license=MIT")) = [].
Proof.
  split; [|split].
  - destruct (scan_line_pairs_tokens [bootstrap] two_packages_line) as [-> _].
    reflexivity.
  - destruct (scan_line_pairs_tokens [bootstrap] two_packages_line)
      as (_ & _ & H & _).
    apply (H 1%nat "package=a"); [reflexivity | reflexivity |].
    repeat constructor.
  - destruct (scan_line_pairs_tokens [] (marker +:+ " license=MIT"))
      as (_ & _ & _ & H).
    apply H. repeat constructor.
Defined.

(** ** Sorting *)

Lemma sort_sorted l : Sorted String.le (PyStr.sort l).
Proof. apply (Sorted_merge_sort String.le). Qed.

Lemma sort_perm l : PyStr.sort l ≡ₚ l.
Proof. apply (merge_sort_Permutation String.le). Qed.

(** A sorted rearrangement of [l] is the list [PyStr.sort] returns: the
    result of sorting does not depend on the algorithm. *)
Lemma sort_unique l l' : Sorted String.le l' → l' ≡ₚ l → PyStr.sort l = l'.
Proof.
  intros Hs Hp. apply (Sorted_unique String.le); [apply sort_sorted | done |].
  by rewrite sort_perm, Hp.
Qed.

Lemma elem_of_sort x l : x ∈ PyStr.sort l ↔ x ∈ l.
Proof. by rewrite sort_perm. Qed.

(** ** Discovery *)

Lemma get_licenses_list_run ctx w : get_licenses_list ctx w = (w, discovery ctx).
Proof.
  unfold get_licenses_list, discovery, get_gopath, run, wwhrd_command.
  rewrite bind_run. destruct (gopath ctx) as [gp|e]; [|done].
  rewrite bind_run. by destruct (run_outcome ctx _).
Qed.

Lemma discovery_ok ctx gp res :
  gopath ctx = Ret gp → run_outcome ctx (wwhrd_command gp) = Ret res →
  discovery ctx = Ret (PyStr.sort (scan_stderr (stderr res))).
Proof. intros H1 H2. unfold discovery. by rewrite H1, H2. Qed.

(** C5: whatever the discovery tool writes, the list of
    [get_licenses_list] is sorted by [String.le] on the whole rows and
    holds the bootstrap entry; when no line of the output holds the
    marker, the bootstrap entry is the only one. *)
Theorem get_licenses_list_sorted (ctx : Ctx) (w : World) (gp : string)
    (res : RunResult) :
  gopath ctx = Ret gp →
  run_outcome ctx (wwhrd_command gp) = Ret res →
  ∃ l, get_licenses_list ctx w = (w, Ret l)
     ∧ Sorted String.le l
     ∧ bootstrap ∈ l
     ∧ ((∀ line, line ∈ PyStr.split newline (stderr res) →
                 PyStr.find marker line = -1) →
        l = [bootstrap]).
Proof.
  intros Hgp Hrun. eexists. split; [|split; [|split]].
  - rewrite get_licenses_list_run, (discovery_ok _ _ _ Hgp Hrun). reflexivity.
  - apply sort_sorted.
  - apply elem_of_sort. rewrite scan_stderr_eq. left.
  - intros Hnone. rewrite scan_stderr_eq.
    replace (PyStr.split newline (stderr res) ≫= line_entries)
      with (@nil string); [reflexivity|].
    symmetry. induction (PyStr.split newline (stderr res)) as [|line lines IH];
      [done|].
    rewrite bind_cons, IH by (intros ??; apply Hnone; by right).
    unfold line_entries. rewrite (Hnone line) by left. reflexivity.
Qed.

Lemma get_licenses_list_sorted_witness :
  ∃ l, get_licenses_list (plain_ctx "level=info msg=starting") empty_world
       = (empty_world, Ret l)
     ∧ Sorted String.le l ∧ bootstrap ∈ l ∧ l = [bootstrap].
Proof.
  destruct (get_licenses_list_sorted (plain_ctx "level=info msg=starting")
              empty_world "/go" (mkRunResult "level=info msg=starting")
              eq_refl eq_refl) as (l & Hl & Hs & Hb & Hone).
  exists l. repeat split; try done.
  apply Hone. intros line Hin. apply list_elem_of_singleton in Hin as ->.
  reflexivity.
Defined.

(** On the line of scenario 1 the entry is emitted at the [package=]
    token, when no license has been read yet: its license field is
    empty. *)
Lemma scenario_1_package_first :
  get_licenses_list (plain_ctx scenario_1_line) empty_world
  = (empty_world, Ret [bootstrap; "core,github.com/foo,"])
  ∧ "core,github.com/foo,MIT" ∉ [bootstrap; "core,github.com/foo,"].
Proof.
  split; [vm_compute; reflexivity|].
  intros H. repeat (apply elem_of_cons in H as [H|H]; [discriminate H|]).
  by apply elem_of_nil in H.
Qed.

(** C2 (amended): a line of the discovery output on which the marker is
    followed by a [license=] token and, later with no other [license=]
    token in between, a [package=] token, yields the entry
    [core,<package>,<license>]. *)
Theorem license_then_package_entry (ctx : Ctx) (w : World) (gp : string)
    (res : RunResult) (line lic pkg : string) (pre mid post : list string) :
  gopath ctx = Ret gp →
  run_outcome ctx (wwhrd_command gp) = Ret res →
  line ∈ PyStr.split newline (stderr res) →
  PyStr.find marker line ≠ -1 →
  line_tokens line
    = pre ++ ("license=" +:+ lic) :: mid ++ ("package=" +:+ pkg) :: post →
  Forall (λ val, is_license val = false) mid →
  ∃ l, get_licenses_list ctx w = (w, Ret l) ∧ format_entry pkg lic ∈ l.
Proof.
  intros Hgp Hrun Hline Hfind Htok Hmid. eexists. split.
  { rewrite get_licenses_list_run, (discovery_ok _ _ _ Hgp Hrun). reflexivity. }
  apply elem_of_sort. rewrite scan_stderr_eq. right.
  apply list_elem_of_bind. exists line. split; [|done].
  unfold line_entries. apply Z.eqb_neq in Hfind. rewrite Hfind.
  pose (i := length (pre ++ ("license=" +:+ lic) :: mid)).
  assert (Htok' : line_tokens line
            = (pre ++ ("license=" +:+ lic) :: mid) ++ ("package=" +:+ pkg) :: post)
    by (rewrite Htok, <- app_assoc; reflexivity).
  assert (Hi : line_tokens line !! i = Some ("package=" +:+ pkg))
    by (rewrite Htok'; by apply list_lookup_middle).
  assert (Htake : take i (line_tokens line) = pre ++ ("license=" +:+ lic) :: mid)
    by (rewrite Htok'; apply take_app_length).
  pose proof (elem_of_paired_entries _ _ _ Hi (is_package_token pkg)) as Hin.
  rewrite Htake in Hin.
  replace (most_recent_license (pre ++ ("license=" +:+ lic) :: mid))
    with lic in Hin; [exact Hin|].
  unfold most_recent_license.
  rewrite filter_app, (filter_cons_True _ ("license=" +:+ lic))
    by apply is_license_token.
  rewrite (filter_license_none _ Hmid), last_snoc. reflexivity.
Qed.

Lemma license_then_package_entry_witness :
  ∃ l, get_licenses_list (plain_ctx found_license_line) empty_world
       = (empty_world, Ret l)
     ∧ "core,github.com/foo,MIT" ∈ l.
Proof.
  apply (license_then_package_entry (plain_ctx found_license_line) empty_world
           "/go" (mkRunResult found_license_line) found_license_line
           "MIT" "github.com/foo" [""] [] []);
    try reflexivity.
  - left.
  - discriminate.
  - constructor.
Defined.

(** ** The reconciler *)

(** In the words of the specification, [removed_licenses] is [missing]
    (discovered, not recorded; printed with [+]) and [added_licenses] is
    [extra] (recorded, not discovered; printed with [-]). *)

Lemma elem_of_removed licenses new_licenses ele :
  ele ∈ removed_licenses licenses new_licenses
  ↔ ele ∈ new_licenses ∧ ele ∉ licenses.
Proof. unfold removed_licenses. rewrite list_elem_of_filter. tauto. Qed.

Lemma elem_of_added licenses new_licenses ele :
  ele ∈ added_licenses licenses new_licenses
  ↔ ele ∈ licenses ∧ ele ∉ new_licenses.
Proof. unfold added_licenses. rewrite list_elem_of_filter. tauto. Qed.

Lemma filter_eq_nil {A} (P : A → Prop) `{!∀ x, Decision (P x)} (l : list A) :
  filter P l = [] ↔ ∀ x, x ∈ l → ¬ P x.
Proof.
  split.
  - intros Hnil x Hx HP. by apply (filter_nil_not_elem_of P l x).
  - intros Hall. induction l as [|x l IH]; [done|].
    rewrite filter_cons_False by (apply Hall; left).
    apply IH. intros y Hy. apply Hall. by right.
Qed.

(** C1: for all lists of entries, [removed_licenses] (missing) holds
    exactly the entries of the new list that are not equal to any entry of
    the old list, and [added_licenses] (extra) exactly the entries of the
    old list that are not equal to any entry of the new list; each keeps
    the order of the list it is taken from. *)
Theorem reconciler_difference (licenses new_licenses : list string)
    (ele : string) :
  (ele ∈ removed_licenses licenses new_licenses
   ↔ ele ∈ new_licenses ∧ ¬ (∃ row, row ∈ licenses ∧ row = ele))
  ∧ (ele ∈ added_licenses licenses new_licenses
     ↔ ele ∈ licenses ∧ ¬ (∃ row, row ∈ new_licenses ∧ row = ele))
  ∧ removed_licenses licenses new_licenses `sublist_of` new_licenses
  ∧ added_licenses licenses new_licenses `sublist_of` licenses.
Proof.
  split; [|split; [|split]].
  - rewrite elem_of_removed. split; intros [H1 H2]; split; try done.
    + intros (row & Hrow & ->). done.
    + intros Hin. apply H2. by exists ele.
  - rewrite elem_of_added. split; intros [H1 H2]; split; try done.
    + intros (row & Hrow & ->). done.
    + intros Hin. apply H2. by exists ele.
  - apply sublist_filter.
  - apply sublist_filter.
Qed.

(** C8: a manifest compared with itself has no difference, and no entry
    is both missing and extra. *)
Theorem reconciler_set_laws (M A B : list string) :
  removed_licenses M M = []
  ∧ added_licenses M M = []
  ∧ Forall (λ ele, ele ∉ added_licenses A B) (removed_licenses A B).
Proof.
  split; [|split].
  - apply filter_eq_nil. intros x Hx Hnot. done.
  - apply filter_eq_nil. intros x Hx Hnot. done.
  - apply Forall_forall. intros ele Hr Ha.
    apply elem_of_removed in Hr as [_ Hr]. apply elem_of_added in Ha as [Ha _].
    done.
Qed.

(** ** Running [lint_licenses] *)

Lemma hack_inner_loop verbose ignore licenses acc w :
  for_acc licenses acc (λ to_removed license,
      if PyStr.contains ignore license then
        when verbose (print ("[hack-windows] ignore: " +:+ license)) ;;
        mret (to_removed ++ [license])
      else mret to_removed) w
  = (printed (if verbose
              then (λ license, "[hack-windows] ignore: " +:+ license)
                   <$> filter (λ l, PyStr.contains ignore l = true) licenses
              else []) w,
     Ret (acc ++ filter (λ l, PyStr.contains ignore l = true) licenses)).
Proof.
  revert acc w. induction licenses as [|license licenses IH]; intros acc w.
  - simpl. rewrite app_nil_r. destruct verbose; by rewrite printed_nil.
  - simpl for_acc. rewrite bind_run.
    destruct (PyStr.contains ignore license) eqn:E.
    + rewrite filter_cons_True by done.
      destruct verbose; simpl; rewrite IH, <- app_assoc; simpl.
      * unfold printed. simpl. by rewrite <- app_assoc.
      * done.
    + rewrite filter_cons_False by (rewrite E; done).
      simpl. by rewrite IH.
Qed.

Lemma hack_windows_run verbose licenses w :
  hack_windows verbose licenses w
  = (printed (hack_log "win32" verbose licenses) w,
     Ret (compared_licenses "win32" licenses)).
Proof.
  unfold hack_windows, ignore_licenses. simpl for_acc.
  do 2 rewrite bind_run. rewrite hack_inner_loop. simpl.
  unfold hack_log, compared_licenses, to_removed. simpl.
  destruct verbose; reflexivity.
Qed.

Lemma read_licenses_run file w text first lines :
  files w !! file = Some text →
  PyStr.readlines (PyStr.universal_newlines text) = first :: lines →
  read_licenses file w = (w, Ret (PyStr.rstrip <$> lines)).
Proof.
  intros Hf Hl. unfold read_licenses, open_read.
  rewrite bind_run, Hf, Hl. reflexivity.
Qed.

(** The run of the audit when the manifest can be read and discovery
    succeeds: what it prints and how it ends. *)
Lemma lint_licenses_run ctx verbose w text first lines new_licenses :
  files w !! "LICENSE-3rdparty.csv" = Some text →
  PyStr.readlines (PyStr.universal_newlines text) = first :: lines →
  discovery ctx = Ret new_licenses →
  let licenses := compared_licenses (platform w) (PyStr.rstrip <$> lines) in
  let removed := removed_licenses licenses new_licenses in
  let added := added_licenses licenses new_licenses in
  lint_licenses ctx verbose w
  = if bool_decide (removed = [] ∧ added = []) then
      (printed (["Verify licenses"]
                ++ hack_log (platform w) verbose (PyStr.rstrip <$> lines)
                ++ ((λ l, "+ " +:+ l) <$> removed)
                ++ ((λ l, "- " +:+ l) <$> added)
                ++ ["licenses ok"]) w, Ret ())
    else
      (printed (["Verify licenses"]
                ++ hack_log (platform w) verbose (PyStr.rstrip <$> lines)
                ++ ((λ l, "+ " +:+ l) <$> removed)
                ++ ((λ l, "- " +:+ l) <$> added)
                ++ ["licenses are not up-to-date"]) w,
       Raise (Exit NoMessage 1)).
Proof.
  intros Hf Hl Hd licenses removed added. unfold lint_licenses.
  rewrite bind_run, print_run.
  rewrite (bind_ret _ _ _ _ _
             (read_licenses_run _ (printed _ w) _ _ _ Hf Hl)).
  rewrite bind_run, get_licenses_list_run, Hd.
  rewrite bind_run. unfold sys_platform. simpl platform.
  assert (Hhack :
    (if bool_decide (platform w = "win32")
     then hack_windows verbose (PyStr.rstrip <$> lines)
     else mret (PyStr.rstrip <$> lines)) (printed ["Verify licenses"] w)
    = (printed (["Verify licenses"]
                ++ hack_log (platform w) verbose (PyStr.rstrip <$> lines)) w,
       Ret licenses)).
  { unfold licenses, compared_licenses, hack_log.
    case_bool_decide as Hp.
    - rewrite hack_windows_run, printed_printed. reflexivity.
    - reflexivity. }
  rewrite (bind_ret _ _ _ _ _ Hhack).
  rewrite bind_run, for_print, printed_printed.
  rewrite bind_run, for_print, printed_printed.
  fold removed. fold added. clear Hhack. clearbody removed added.
  case_bool_decide as Hnil.
  - destruct Hnil as [-> ->]. simpl. rewrite print_run. unfold printed. simpl.
    rewrite ?app_nil_r. repeat (rewrite <- ?app_assoc; simpl). reflexivity.
  - assert ((0 <? Z.of_nat (length removed) + Z.of_nat (length added)) = true)
      as ->.
    { apply Z.ltb_lt. destruct removed, added; simpl length; try lia.
      exfalso. by apply Hnil. }
    rewrite bind_run, print_run. unfold raise, printed. simpl.
    repeat (rewrite <- ?app_assoc; simpl). reflexivity.
Qed.

(** ** The text of a manifest *)

Lemma append_cons (a : ascii) (s1 s2 : string) :
  String a s1 +:+ s2 = String a (s1 +:+ s2).
Proof. reflexivity. Qed.






Lemma readlines_row row rest :
  has_char "010" row = false →
  PyStr.readlines (row +:+ String newline rest)
  = (row +:+ String newline "") :: PyStr.readlines rest.
Proof.
  induction row as [|a row IH]; [done|].
  intros [Ha Hrow]%orb_false_elim.
  rewrite !append_cons. simpl. by rewrite Ha, (IH Hrow).
Qed.


Lemma rstrip_all_space ws : all_space ws = true → PyStr.rstrip ws = "".
Proof.
  induction ws as [|a ws IH]; [done|]. simpl.
  intros [Ha Hws]%andb_prop. by rewrite (IH Hws), Ha.
Qed.

Lemma rstrip_app_space s ws :
  all_space ws = true → PyStr.rstrip (s +:+ ws) = PyStr.rstrip s.
Proof.
  intros Hws. induction s as [|a s IH].
  - by rewrite rstrip_all_space.
  - rewrite append_cons. simpl. by rewrite IH.
Qed.


(** What [rstrip] removes is white space, and what it leaves does not
    end in white space. *)
Lemma rstrip_split s :
  ∃ ws, s = PyStr.rstrip s +:+ ws ∧ all_space ws = true.
Proof.
  induction s as [|a s (ws & Hs & Hws)]; [by exists ""|]. simpl.
  destruct (PyStr.rstrip s) as [|b r] eqn:E.
  - destruct (PyStr.isspace a) eqn:Ha.
    + exists (String a s). split; [done|]. simpl. rewrite Ha. simpl.
      rewrite Hs. exact Hws.
    + exists ws. split; [|done]. rewrite append_cons. by rewrite <- Hs.
  - exists ws. split; [|done]. rewrite append_cons. by rewrite <- Hs.
Qed.



(** ** Running [generate_licenses] *)




Lemma open_write_fails filename w :
  can_create w filename = false →
  open_write filename w = (w, Raise (IOError filename)).
Proof. intros H. unfold open_write. by rewrite H. Qed.


(** When the output file cannot be opened, [generate_licenses] raises the
    error of [open]: nothing is written or printed, and discovery is not
    run. *)
Lemma generate_licenses_no_open ctx filename verbose w :
  can_create w filename = false →
  generate_licenses ctx filename verbose w = (w, Raise (IOError filename)).
Proof.
  intros H. unfold generate_licenses.
  by rewrite (bind_raise _ _ _ _ _ (open_write_fails _ _ H)).
Qed.

Example generate_licenses_no_directory :
  generate_licenses (plain_ctx found_license_line) "nodir/out.csv" false
    empty_world
  = (empty_world, Raise (IOError "nodir/out.csv"))
  ∧ can_create (recorded [bootstrap]) "nodir/out.csv" = false
  ∧ can_create (mkWorld {[ "tasks/go.py" := "" ]} "linux" []) "tasks/out.csv"
    = true
  ∧ can_create empty_world "" = false
  ∧ can_create (recorded [bootstrap]) "./out.csv" = true
  ∧ can_create (mkWorld {[ "tasks/go.py" := "" ]} "linux" []) "tasks/" = false.
Proof. repeat split; vm_compute; reflexivity. Qed.








(** ** Writing a manifest and reading it back *)





(** ** The outcome of the audit *)

(** C4: when the manifest is read and discovery succeeds, the audit ends
    with [Exit(code=1)] if and only if one of the two lists of differences
    is not empty, and ends normally if and only if both are empty. *)
Theorem lint_licenses_exit_code (ctx : Ctx) (verbose : bool) (w : World)
    (text first : string) (lines new_licenses : list string) :
  files w !! manifest_file = Some text →
  PyStr.readlines (PyStr.universal_newlines text) = first :: lines →
  get_licenses_list ctx w = (w, Ret new_licenses) →
  let licenses := compared_licenses (platform w) (PyStr.rstrip <$> lines) in
  let removed := removed_licenses licenses new_licenses in
  let added := added_licenses licenses new_licenses in
  ((lint_licenses ctx verbose w).2 = Raise (Exit NoMessage 1)
   ↔ removed ≠ [] ∨ added ≠ [])
  ∧ ((lint_licenses ctx verbose w).2 = Ret () ↔ removed = [] ∧ added = []).
Proof.
  intros Hf Hl Hd licenses removed added.
  rewrite get_licenses_list_run in Hd.
  assert (Hd' : discovery ctx = Ret new_licenses) by congruence.
  rewrite (lint_licenses_run ctx verbose w text first lines new_licenses Hf Hl Hd').
  fold licenses. fold removed. fold added.
  case_bool_decide as Hnil; cbn [snd].
  - split; split; try done. intros [H|H]; by destruct Hnil.
  - split; split; try done. intros _.
    destruct removed; [|by left]. destruct added; [|by right].
    by destruct Hnil.
Qed.

Lemma lint_licenses_exit_code_witness :
  removed_licenses [row_A; bootstrap] [bootstrap; row_C] = [row_C]
  ∧ added_licenses [row_A; bootstrap] [bootstrap; row_C] = [row_A]
  ∧ (lint_licenses (plain_ctx found_license_line) false
       (recorded [row_A; bootstrap])).2 = Raise (Exit NoMessage 1).
Proof.
  split; [reflexivity|]. split; [reflexivity|].
  apply (lint_licenses_exit_code (plain_ctx found_license_line) false
           (recorded [row_A; bootstrap])
           (manifest_text [row_A; bootstrap])
           (header +:+ String newline "")
           [row_A +:+ String newline ""; bootstrap +:+ String newline ""]
           [bootstrap; row_C]); try reflexivity.
  left. discriminate.
Defined.

(** ** Comparison of rows *)

(** A recorded row that ends in two spaces is read as the row without
    them, and the audit finds no difference with the discovered row. *)
Lemma trailing_space_row_compares_equal :
  bootstrap +:+ "  " ≠ bootstrap
  ∧ (read_licenses manifest_file (recorded [bootstrap +:+ "  "])).2
    = Ret [bootstrap]
  ∧ (lint_licenses (plain_ctx "") false (recorded [bootstrap +:+ "  "])).2
    = Ret ().
Proof. split; [discriminate|]. split; vm_compute; reflexivity. Qed.

Lemma rstrip_eq_iff line1 line2 :
  PyStr.rstrip line1 = PyStr.rstrip line2
  ↔ ∃ row ws1 ws2, line1 = row +:+ ws1 ∧ line2 = row +:+ ws2
                 ∧ all_space ws1 = true ∧ all_space ws2 = true.
Proof.
  split.
  - intros Heq. destruct (rstrip_split line1) as (ws1 & H1 & Hws1).
    destruct (rstrip_split line2) as (ws2 & H2 & Hws2).
    exists (PyStr.rstrip line1), ws1, ws2. rewrite Heq at 2. done.
  - intros (row & ws1 & ws2 & -> & -> & Hws1 & Hws2).
    by rewrite !rstrip_app_space.
Qed.

(** C6 (amended): the rows are compared by equality of strings, with no
    normalisation at the comparison; at read time each recorded line is
    stripped of all its trailing white space, not of the newline alone.
    Two recorded lines give the same entry exactly when they differ in
    trailing white space only, and an entry is recorded exactly when it is
    the stripped form of a recorded line. *)
Theorem recorded_rows_compare (lines new_licenses : list string)
    (line1 line2 ele : string) :
  (PyStr.rstrip line1 = PyStr.rstrip line2
   ↔ ∃ row ws1 ws2, line1 = row +:+ ws1 ∧ line2 = row +:+ ws2
                  ∧ all_space ws1 = true ∧ all_space ws2 = true)
  ∧ (ele ∈ removed_licenses (PyStr.rstrip <$> lines) new_licenses
     ↔ ele ∈ new_licenses ∧ Forall (λ line, PyStr.rstrip line ≠ ele) lines)
  ∧ (ele ∈ added_licenses (PyStr.rstrip <$> lines) new_licenses
     ↔ Exists (λ line, PyStr.rstrip line = ele) lines
       ∧ Forall (λ row, row ≠ ele) new_licenses).
Proof.
  split; [apply rstrip_eq_iff|]. split.
  - rewrite elem_of_removed, list_elem_of_fmap, Forall_forall.
    split; intros [H1 H2]; split; try done.
    + intros line Hline Heq. apply H2. by exists line.
    + intros (line & -> & Hline). by apply (H2 line).
  - rewrite elem_of_added, list_elem_of_fmap, Exists_exists, Forall_forall.
    split; intros [(line & H1 & Hline) H2]; split.
    + by exists line.
    + intros row Hrow ->. done.
    + by exists line.
    + intros Hin. by apply (H2 ele).
Qed.

(** ** Entries with an empty license field *)

(** A recorded row with an empty license field: the audit compares it as
    any other row. It passes when discovery yields the same row, and ends
    as a reconciliation mismatch, after the differences were printed, when
    it does not. *)
Lemma empty_license_row_is_reconciled :
  lint_licenses (plain_ctx scenario_1_line) false
    (recorded [bootstrap; "core,github.com/foo,"])
  = (printed ["Verify licenses"; "licenses ok"]
       (recorded [bootstrap; "core,github.com/foo,"]), Ret ())
  ∧ lint_licenses (plain_ctx "") false
      (recorded [bootstrap; "core,github.com/foo,"])
    = (printed ["Verify licenses"; "- core,github.com/foo,";
                "licenses are not up-to-date"]
         (recorded [bootstrap; "core,github.com/foo,"]),
       Raise (Exit NoMessage 1)).
Proof. split; vm_compute; reflexivity. Qed.

(** ** The legacy audit *)

Lemma len_zero s : (PyStr.len s =? 0) = true ↔ s = "".
Proof.
  unfold PyStr.len. rewrite Z.eqb_eq. destruct s; simpl; [done|].
  split; [lia | discriminate].
Qed.

(** The entry at the head of the rows raises, and it lacks a column. *)
Ltac halts_ill_formed :=
  split; [reflexivity|]; split; [reflexivity|]; split; [done|];
  let Hall := fresh in
  intros Hall; apply Forall_cons in Hall as [(? & ? & ? & ?) _]; congruence.

Section LegacyProperties.

Variable DictReader : string → list Row.

(** The loop over the entries stops at the first entry it cannot
    accept; with an entry of empty license among them it does not reach
    its end. *)
Lemma check_entries_halt (rows : list Row) (license_deps : gset string)
    (w : World) :
  Exists empty_license rows →
  ∃ w' e, for_acc rows license_deps check_entry w = (w', Raise e)
    ∧ files w' = files w
    ∧ (∀ missing listed code, e ≠ Exit (Outdated missing listed) code)
    ∧ (Forall well_formed rows →
       ∃ entry origin, entry ∈ rows ∧ empty_license entry
         ∧ getitem entry "Origin" = Str origin
         ∧ e = Exit (EmptyLicense origin) 1).
Proof.
  revert license_deps w.
  induction rows as [|entry rows IH]; intros license_deps w Hex.
  { by apply Exists_nil in Hex. }
  simpl for_acc. rewrite bind_run. unfold check_entry at 1.
  destruct (getitem entry "License") as [| |lic] eqn:Hlic.
  - exists w, (KeyError "License"). halts_ill_formed.
  - exists w, TypeError. halts_ill_formed.
  - destruct (PyStr.len lic =? 0) eqn:Hlen.
    + apply len_zero in Hlen as ->.
      destruct (getitem entry "Origin") as [| |origin] eqn:Horigin.
      * exists w, (KeyError "Origin"). halts_ill_formed.
      * exists w, (Exit (EmptyLicense "None") 1). halts_ill_formed.
      * exists w, (Exit (EmptyLicense origin) 1).
        split; [reflexivity|]. split; [reflexivity|]. split; [done|].
        intros _. exists entry, origin.
        split; [left|]. split; [exact Hlic|]. by split.
    + assert (Hrest : Exists empty_license rows).
      { apply Exists_cons in Hex as [Hentry|Hrest]; [|done].
        unfold empty_license in Hentry. rewrite Hlic in Hentry.
        injection Hentry as ->. discriminate Hlen. }
      destruct (getitem entry "Origin") as [| |origin] eqn:Horigin.
      * exists w, (KeyError "Origin"). halts_ill_formed.
      * exists w, AttributeError. halts_ill_formed.
      * rewrite bind_run, print_run. unfold mret, M_ret.
        destruct (IH ({[dep_name origin]} ∪ license_deps)
                     (printed [dep_name origin] w) Hrest)
          as (w' & e & Hrun & Hfiles & Hnot & Hwf).
        exists w', e. rewrite Hrun.
        split; [reflexivity|]. split; [exact Hfiles|]. split; [exact Hnot|].
        intros [_ Hall]%Forall_cons.
        destruct (Hwf Hall) as (entry' & origin' & Hin & He & Ho & ->).
        exists entry', origin'. split; [by right|]. by split.
Qed.

(** C7 (amended): in the legacy audit [lint_licenses_old], a recorded
    entry with an empty license field stops the task with an exception
    while the entries are read, before the set of recorded dependencies
    is compared with the dependencies of [go.sum]; when every entry has
    its [License] and [Origin] columns, the exception is [Exit(code=1)]
    with the message that names the origin of an entry of empty
    license. *)
Theorem lint_licenses_old_empty_license (ctx : Ctx) (w : World)
    (gosum text : string) :
  files w !! "go.sum" = Some gosum →
  files w !! manifest_file = Some text →
  Exists empty_license (DictReader (PyStr.universal_newlines text)) →
  ∃ w' e, lint_licenses_old DictReader ctx w = (w', Raise e)
    ∧ files w' = files w
    ∧ (∀ missing listed code, e ≠ Exit (Outdated missing listed) code)
    ∧ (Forall well_formed (DictReader (PyStr.universal_newlines text)) →
       ∃ entry origin,
         entry ∈ DictReader (PyStr.universal_newlines text)
         ∧ empty_license entry
         ∧ getitem entry "Origin" = Str origin
         ∧ e = Exit (EmptyLicense origin) 1).
Proof.
  intros Hsum Hfile Hex. unfold lint_licenses_old.
  rewrite bind_run. unfold open_read at 1. rewrite Hsum.
  rewrite bind_run. unfold open_read at 1.
  fold manifest_file. rewrite Hfile.
  destruct (check_entries_halt _ ∅ w Hex)
    as (w' & e & Hrun & Hfiles & Hnot & Hwf).
  rewrite bind_run, Hrun. by exists w', e.
Qed.

End LegacyProperties.

Lemma lint_licenses_old_empty_license_witness :
  ∃ w' e, lint_licenses_old comma_reader (plain_ctx "") legacy_world
          = (w', Raise e)
    ∧ files w' = files legacy_world
    ∧ e = Exit (EmptyLicense "github.com/foo") 1.
Proof.
  destruct (lint_licenses_old_empty_license comma_reader (plain_ctx "")
              legacy_world ""
              (manifest_text ["core,github.com/bar,MIT"; "core,github.com/foo,"])
              eq_refl eq_refl)
    as (w' & e & Hrun & Hfiles & _ & Hwf).
  { apply Exists_cons_tl, Exists_cons_hd. reflexivity. }
  exists w', e. split; [exact Hrun|]. split; [exact Hfiles|].
  destruct Hwf as (entry & origin & Hin & Hempty & Horigin & ->).
  { repeat constructor; by eexists _, _. }
  repeat (apply elem_of_cons in Hin as [->|Hin]);
    [discriminate Hempty | by injection Horigin as <- | by apply elem_of_nil in Hin].
Defined.


(** ** Splitting and joining *)

Lemma split_not_nil c s : PyStr.split c s ≠ [].
Proof. destruct s as [|a s]; simpl; [done|]. by repeat case_match. Qed.

Lemma join_cons2 sep x y l :
  join sep (x :: y :: l) = x +:+ sep +:+ join sep (y :: l).
Proof. reflexivity. Qed.

Lemma join_split c s : join (String c "") (PyStr.split c s) = s.
Proof.
  induction s as [|a s IH]; [done|].
  change (PyStr.split c (String a s))
    with (if Ascii.eqb a c then "" :: PyStr.split c s
          else match PyStr.split c s with
               | piece :: rest => String a piece :: rest
               | [] => [String a ""]
               end).
  destruct (PyStr.split c s) as [|piece rest] eqn:E.
  { by apply split_not_nil in E. }
  destruct (Ascii.eqb a c) eqn:Ha.
  - apply Ascii.eqb_eq in Ha as ->. rewrite join_cons2, IH. reflexivity.
  - destruct rest as [|y rest].
    + change (join (String c "") [piece]) with piece in IH.
      change (join (String c "") [String a piece]) with (String a piece).
      by rewrite IH.
    + rewrite join_cons2 in IH. rewrite join_cons2, append_cons. by rewrite IH.
Qed.

Lemma split_no_sep c s : has_char c s = false → PyStr.split c s = [s].
Proof.
  induction s as [|a s IH]; [done|]. simpl.
  intros [Ha Hs]%orb_false_elim. by rewrite Ha, (IH Hs).
Qed.

Lemma split_app_sep c x y :
  has_char c x = false →
  PyStr.split c (x +:+ String c y) = x :: PyStr.split c y.
Proof.
  induction x as [|a x IH].
  - intros _. change ("" +:+ String c y) with (String c y). simpl.
    by rewrite Ascii.eqb_refl.
  - simpl has_char. intros [Ha Hx]%orb_false_elim. rewrite append_cons. simpl.
    by rewrite Ha, (IH Hx).
Qed.

Lemma split_join c l :
  l ≠ [] → Forall (λ x, has_char c x = false) l →
  PyStr.split c (join (String c "") l) = l.
Proof.
  intros Hne Hall. induction Hall as [|x l Hx Hl IH]; [done|].
  destruct l as [|y l].
  - simpl. by apply split_no_sep.
  - rewrite join_cons2.
    change (x +:+ String c "" +:+ join (String c "") (y :: l))
      with (x +:+ String c (join (String c "") (y :: l))).
    rewrite split_app_sep by done. by rewrite IH.
Qed.

Lemma split_pieces c s : Forall (λ x, has_char c x = false) (PyStr.split c s).
Proof.
  induction s as [|a s IH]; simpl; [by repeat constructor|].
  destruct (Ascii.eqb a c) eqn:Ha; [by constructor|].
  destruct (PyStr.split c s) as [|piece rest].
  { constructor; [|constructor]. simpl. by rewrite Ha. }
  apply Forall_cons in IH as [Hp Hrest].
  constructor; [|done]. simpl. by rewrite Ha, Hp.
Qed.

(** ** Names of dependencies *)

(** X14: [dep_name] keeps the first three components of an origin: an
    origin of at most three components is its own name, and the name of a
    name is the name. *)
Theorem dep_name_three_components (origin : string) :
  (length (PyStr.split "/" origin) ≤ 3 → dep_name origin = origin)%nat
  ∧ PyStr.split "/" (dep_name origin) = take 3 (PyStr.split "/" origin)
  ∧ dep_name (dep_name origin) = dep_name origin.
Proof.
  assert (Hsplit : PyStr.split "/" (dep_name origin)
                   = take 3 (PyStr.split "/" origin)).
  { unfold dep_name. apply (split_join "/").
    - pose proof (split_not_nil "/" origin).
      by destruct (PyStr.split "/" origin).
    - apply Forall_take, split_pieces. }
  split; [|split; [exact Hsplit|]].
  - intros Hlen. unfold dep_name. rewrite take_ge by done.
    apply (join_split "/").
  - unfold dep_name at 1. rewrite Hsplit, take_take. reflexivity.
Qed.

Lemma dep_name_three_components_witness :
  dep_name "gopkg.in/yaml.v2" = "gopkg.in/yaml.v2"
  ∧ dep_name "github.com/a/b/c/d" = "github.com/a/b".
Proof.
  split.
  - apply (proj1 (dep_name_three_components "gopkg.in/yaml.v2")).
    vm_compute. lia.
  - reflexivity.
Defined.

(** ** The dependencies of [go.sum] *)

Lemma read_go_deps_from lines (acc : gset string) x :
  x ∈ foldl (λ go_deps line,
               let gopkg := PyStr.split " " line in
               if bool_decide (length gopkg ≠ 3%nat) then go_deps
               else {[ default "" (head gopkg) ]} ∪ go_deps)
            acc lines
  ↔ x ∈ acc ∨ ∃ line b c, line ∈ lines ∧ PyStr.split " " line = [x; b; c].
Proof.
  revert acc. induction lines as [|line lines IH]; intros acc; simpl.
  - split; [by left|]. intros [H|(line & b & c & Hin & _)]; [done|].
    by apply elem_of_nil in Hin.
  - rewrite IH. case_bool_decide as Hlen.
    + split; intros [H|(l & b & c & Hin & Hs)]; try by left.
      * right. exists l, b, c. split; [by right|done].
      * apply elem_of_cons in Hin as [->|Hin].
        -- rewrite Hs in Hlen. by destruct Hlen.
        -- right. by exists l, b, c.
    + destruct (PyStr.split " " line) as [|y [|b [|c [|? ?]]]] eqn:Hs;
        try discriminate Hlen.
      simpl. split.
      * intros [[->%elem_of_singleton|H]%elem_of_union|(l & b' & c' & Hin & Hl)].
        -- right. exists line, b, c. split; [left|done].
        -- by left.
        -- right. exists l, b', c'. split; [by right|done].
      * intros [H|(l & b' & c' & Hin & Hl)].
        -- left. apply elem_of_union. by right.
        -- apply elem_of_cons in Hin as [->|Hin].
           ++ left. rewrite Hs in Hl. injection Hl as -> _ _.
              apply elem_of_union. left. by apply elem_of_singleton.
           ++ right. by exists l, b', c'.
Qed.

(** X13: a module is among the dependencies read from [go.sum] exactly
    when some line has three fields between single spaces, the module
    first; every other line is skipped. *)
Theorem read_go_deps_three_fields (lines : list string) (x : string) :
  x ∈ read_go_deps lines
  ↔ ∃ line b c, line ∈ lines ∧ PyStr.split " " line = [x; b; c].
Proof.
  unfold read_go_deps. rewrite read_go_deps_from.
  split; [|by right]. intros [H|H]; [|done]. set_solver.
Qed.

(** ** White space *)

Lemma all_space_app s1 s2 :
  all_space (s1 +:+ s2) = all_space s1 && all_space s2.
Proof.
  induction s1 as [|a s1 IH]; [done|].
  rewrite append_cons. simpl. by rewrite IH, andb_assoc.
Qed.

Lemma lstrip_empty s : lstrip s = "" ↔ all_space s = true.
Proof.
  induction s as [|a s IH]; [done|]. simpl.
  destruct (PyStr.isspace a); simpl; [exact IH|]. split; discriminate.
Qed.

Lemma strip_empty s : strip s = "" ↔ all_space s = true.
Proof.
  unfold strip. rewrite lstrip_empty.
  destruct (rstrip_split s) as (ws & Hs & Hws).
  rewrite Hs at 2. rewrite all_space_app, Hws, andb_true_r. reflexivity.
Qed.

Lemma len_positive s : (0 <? PyStr.len s) = true ↔ s ≠ "".
Proof.
  unfold PyStr.len. rewrite Z.ltb_lt. destruct s; simpl; [|split; [done|lia]].
  split; [lia|done].
Qed.

(** ** The targets of the linter tasks *)

Lemma join_targets l :
  Forall (λ t, has_char "," t = false) l →
  join " " (PyStr.split "," (join "," l)) = join " " l.
Proof.
  intros Hl. destruct l as [|t l]; [done|].
  by rewrite (split_join "," (t :: l)).
Qed.

Lemma misspell_lines plat lines acc :
  foldl (misspell_line plat) acc lines
  = acc ++ filter (misspell_legit plat) lines.
Proof.
  revert acc. induction lines as [|line lines IH]; intros acc; simpl.
  - by rewrite app_nil_r.
  - rewrite IH. unfold misspell_line.
    destruct (0 <? PyStr.len (strip line)) eqn:Hlen.
    + apply len_positive in Hlen.
      assert (Hsp : all_space line = false).
      { destruct (all_space line) eqn:E; [|done].
        by apply strip_empty in E. }
      destruct (existsb _ _) eqn:Hex; simpl.
      * rewrite filter_cons_False; [done|]. intros [_ Hall].
        apply existsb_exists in Hex as (ig & Hin & Hc).
        rewrite Forall_forall in Hall.
        apply list_elem_of_In in Hin. rewrite (Hall ig Hin) in Hc. done.
      * rewrite filter_cons_True; [by rewrite <- app_assoc|].
        split; [done|]. apply Forall_forall. intros ig Hin.
        destruct (PyStr.contains ig line) eqn:Hc; [|done].
        assert (existsb (λ ignored_target, PyStr.contains ignored_target line)
                        (MISSPELL_IGNORED_TARGETS plat) = true); [|congruence].
        apply existsb_exists. exists ig. split; [|done].
        by apply list_elem_of_In.
    + rewrite filter_cons_False; [done|]. intros [Hsp _].
      assert (strip line = "") as Hs.
      { destruct (decide (strip line = "")) as [|Hne]; [done|].
        apply len_positive in Hne. congruence. }
      apply strip_empty in Hs. congruence.
Qed.

(** X11: when the command returns, [misspell] raises [Exit(code=2)],
    after printing the lines that count, if some line of the output holds
    a character that is not white space and none of the ignored paths;
    otherwise it prints that no issue was found and returns. *)
Theorem misspell_outcome (sh : Shell) (targets : Targets) (w : World)
    (out : string) :
  stdout_of sh ("misspell " +:+ join " " (target_list targets)) = Ret out →
  misspell sh targets w
  = match filter (misspell_legit (platform w)) (PyStr.split newline out) with
    | [] => (printed ["misspell found no issues"] w, Ret ())
    | legit =>
        (printed ["Misspell issues found:" +:+ String newline
                    (join (String newline "") legit)] w,
         Raise (Exit NoMessage 2))
    end.
Proof.
  intros Hout. unfold misspell, run_stdout.
  rewrite bind_run, Hout, bind_run. unfold sys_platform.
  rewrite misspell_lines. simpl app.
  by destruct (filter _ _).
Qed.

Lemma misspell_outcome_witness :
  misspell (plain_shell ("pkg/ebpf/testdata/x.c:1: teh" +:+ String newline
                           ("   " +:+ String newline "a.go:2: teh")))
    (TargetsStr "./pkg") empty_world
  = (printed ["Misspell issues found:" +:+ String newline "a.go:2: teh"]
       empty_world, Raise (Exit NoMessage 2)).
Proof.
  rewrite (misspell_outcome
             (plain_shell ("pkg/ebpf/testdata/x.c:1: teh" +:+ String newline
                             ("   " +:+ String newline "a.go:2: teh")))
             (TargetsStr "./pkg") empty_world
             ("pkg/ebpf/testdata/x.c:1: teh" +:+ String newline
                ("   " +:+ String newline "a.go:2: teh")) eq_refl).
  vm_compute. reflexivity.
Defined.

Section LinterProperties.

Variable set_iter : gset string → list string.
Variable basename : string → string.

(** X8: targets given as the string of the comma separated names of a
    list, no name holding a comma, run the same task as the list itself:
    for [fmt], [misspell], [ineffassign] and [cyclo] whatever the list,
    for [lint] when the list is not empty. *)
Theorem targets_string_or_list (sh : Shell) (l : list string)
    (fail_on_fmt : bool) (limit : Z) :
  Forall (λ t, has_char "," t = false) l →
  fmt set_iter sh (TargetsStr (join "," l)) fail_on_fmt
    = fmt set_iter sh (TargetsList l) fail_on_fmt
  ∧ misspell sh (TargetsStr (join "," l)) = misspell sh (TargetsList l)
  ∧ ineffassign sh (TargetsStr (join "," l)) = ineffassign sh (TargetsList l)
  ∧ cyclo sh (TargetsStr (join "," l)) limit = cyclo sh (TargetsList l) limit
  ∧ (l ≠ [] →
     lint set_iter basename sh (TargetsStr (join "," l))
       = lint set_iter basename sh (TargetsList l)).
Proof.
  intros Hl. pose proof (join_targets l Hl) as Hjoin.
  unfold fmt, misspell, ineffassign, cyclo, lint. simpl target_list.
  rewrite Hjoin. repeat split; try reflexivity.
  intros Hne. by rewrite (split_join "," l).
Qed.

(** X9: [fmt] fails, with [Exit(code=1)], exactly when [fail_on_fmt] is set
    and the output of [gofmt] is not empty, be it of empty lines only;
    when the command itself fails the error is raised and nothing is
    printed; in every other case the task returns after printing that no
    issue was found, also when files were reformatted. *)
Theorem fmt_exit (sh : Shell) (targets : Targets) (fail_on_fmt : bool)
    (w : World) :
  (∀ out, stdout_of sh ("gofmt -l -w -s " +:+ join " " (target_list targets))
          = Ret out →
     ((fmt set_iter sh targets fail_on_fmt w).2 = Raise (Exit NoMessage 1)
      ↔ out ≠ "" ∧ fail_on_fmt = true)
     ∧ ((fmt set_iter sh targets fail_on_fmt w).2 = Ret ()
        ↔ out = "" ∨ fail_on_fmt = false)
     ∧ ((fmt set_iter sh targets fail_on_fmt w).2 = Ret () →
        last (stdout (fmt set_iter sh targets fail_on_fmt w).1)
        = Some "gofmt found no issues"))
  ∧ (∀ e, stdout_of sh ("gofmt -l -w -s " +:+ join " " (target_list targets))
          = Raise e →
     fmt set_iter sh targets fail_on_fmt w = (w, Raise e)).
Proof.
  split.
  - intros out Hout. unfold fmt, run_stdout. rewrite bind_run, Hout.
    cbv beta iota. rewrite bind_run.
    case_bool_decide as Hne.
    + rewrite (bind_ret _ _ _ _ _ (print_run _ _)).
      destruct fail_on_fmt.
      * rewrite (bind_ret _ _ _ _ _ (print_run _ _)).
        unfold raise. cbv beta iota. cbn [snd fst].
        split; [|split]; [split; [done|by intros _] | |done].
        split; [done|]. by intros [?|?].
      * cbn [mret M_ret]. cbv beta iota. rewrite print_run. cbn [snd fst].
        split; [|split].
        -- split; [done|]. by intros [_ ?].
        -- split; [by right|done].
        -- intros _. unfold printed. cbn [stdout]. by rewrite last_snoc.
    + cbn [mret M_ret]. cbv beta iota. rewrite print_run. cbn [snd fst].
      split; [|split].
      * split; [done|]. by intros [? _].
      * split; [by left|done].
      * intros _. unfold printed. cbn [stdout]. by rewrite last_snoc.
  - intros e He. unfold fmt, run_stdout. by rewrite bind_run, He.
Qed.

Lemma lint_lines (lines : list string) (st : lint_scan) :
  lint_files (foldl (lint_line basename) st lines)
  = lint_files st
    ++ filter (λ fname, fname ∉ MODULE_WHITELIST) (lint_fname basename <$> lines).
Proof.
  revert st. induction lines as [|line lines IH]; intros st; simpl.
  - by rewrite app_nil_r.
  - rewrite IH. unfold lint_line. fold (lint_fname basename line).
    case_bool_decide as Hin; simpl.
    + rewrite filter_cons_False; [done|]. by intros ?.
    + rewrite filter_cons_True by done. by rewrite <- app_assoc.
Qed.

(** X10: when the command returns, [lint] fails, with [Exit(code=1)],
    exactly when some line of the output that is not empty names a file
    outside the whitelist; the number it prints is the number of such
    lines, a file counting once for each of its lines. *)
Theorem lint_exit (sh : Shell) (targets : Targets) (w : World) (out : string) :
  stdout_of sh ("golint " +:+ join " " ((λ t, t +:+ "/...") <$> target_list targets))
    = Ret out →
  ((lint set_iter basename sh targets w).2 = Raise (Exit NoMessage 1)
   ↔ lint_offending basename out ≠ [])
  ∧ ((lint set_iter basename sh targets w).2 = Ret ()
     ↔ lint_offending basename out = [])
  ∧ (lint_offending basename out ≠ [] →
     (lint set_iter basename sh targets w).1
     = printed ["Linting issues found in "
                +:+ pretty (length (lint_offending basename out))
                +:+ " files."] w).
Proof.
  intros Hout. unfold lint, run_stdout. rewrite bind_run, Hout.
  cbv beta iota. rewrite bind_run.
  case_bool_decide as Hne.
  - rewrite bind_run.
    rewrite lint_lines. cbn [lint_files app]. fold (lint_offending basename out).
    case_bool_decide as Hoff.
    + rewrite (bind_ret _ _ _ _ _ (print_run _ _)).
      unfold raise. cbv beta iota. cbn [fst snd].
      split; [|split]; [done| |done]. split; [done|]. by intros ?.
    + cbn [mret M_ret]. cbv beta iota.
      match goal with
      | |- context [(if ?b then ?m1 else ?m2) w] =>
          assert (∃ lines, (if b then m1 else m2) w = (printed lines w, Ret ()))
            as [lines ->]
      end.
      { case_bool_decide.
        - rewrite for_print. by eexists.
        - exists []. by rewrite printed_nil. }
      rewrite print_run. cbn [fst snd].
      split; [|split]; [|done|done]. split; [done|]. by intros ?.
  - subst out. cbn [mret M_ret]. cbv beta iota.
    rewrite print_run. cbn [fst snd].
    split; [|split]; [|done|done]. split; [done|]. by intros ?.
Qed.

End LinterProperties.

Lemma targets_string_or_list_witness :
  lint elements posix_basename (plain_shell "") (TargetsStr "./pkg,./cmd")
  = lint elements posix_basename (plain_shell "") (TargetsList ["./pkg"; "./cmd"]).
Proof.
  apply (targets_string_or_list elements posix_basename (plain_shell "")
           ["./pkg"; "./cmd"] false 15).
  - repeat constructor.
  - discriminate.
Defined.

Lemma fmt_exit_witness :
  (fmt elements (plain_shell (String newline "")) (TargetsStr "./pkg") true
     empty_world).2 = Raise (Exit NoMessage 1)
  ∧ fmt elements (mkShell (λ _, Raise UnexpectedExit)) (TargetsStr "./pkg") true
      empty_world = (empty_world, Raise UnexpectedExit).
Proof.
  destruct (fmt_exit elements (plain_shell (String newline ""))
              (TargetsStr "./pkg") true empty_world) as [Hret _].
  destruct (fmt_exit elements (mkShell (λ _, Raise UnexpectedExit))
              (TargetsStr "./pkg") true empty_world) as [_ Hraise].
  split.
  - apply (Hret (String newline "") eq_refl). by split.
  - by apply Hraise.
Defined.

Lemma lint_exit_witness :
  lint elements posix_basename (plain_shell golint_output) (TargetsStr "./pkg")
    empty_world
  = (printed ["Linting issues found in 2 files."] empty_world,
     Raise (Exit NoMessage 1)).
Proof.
  destruct (lint_exit elements posix_basename (plain_shell golint_output)
              (TargetsStr "./pkg") empty_world golint_output eq_refl)
    as (Hexit & _ & Hprint).
  apply injective_projections.
  - rewrite Hprint; [reflexivity|]. vm_compute. discriminate.
  - apply Hexit. vm_compute. discriminate.
Defined.

(** ** More on the audit *)

Lemma lint_licenses_no_file ctx verbose w :
  files w !! manifest_file = None →
  lint_licenses ctx verbose w
  = (printed ["Verify licenses"] w, Raise (IOError manifest_file)).
Proof.
  intros Hf. unfold lint_licenses.
  rewrite (bind_ret _ _ _ _ _ (print_run _ _)).
  rewrite bind_run. unfold read_licenses, open_read.
  rewrite bind_run. cbn [files printed]. fold manifest_file. by rewrite Hf.
Qed.

Lemma lint_licenses_no_line ctx verbose w text :
  files w !! manifest_file = Some text →
  PyStr.readlines (PyStr.universal_newlines text) = [] →
  lint_licenses ctx verbose w
  = (printed ["Verify licenses"] w, Raise StopIteration).
Proof.
  intros Hf Hl. unfold lint_licenses.
  rewrite (bind_ret _ _ _ _ _ (print_run _ _)).
  rewrite bind_run. unfold read_licenses, open_read.
  rewrite bind_run. cbn [files printed]. fold manifest_file.
  by rewrite Hf, Hl.
Qed.

Lemma lint_licenses_no_discovery ctx verbose w text first lines e :
  files w !! manifest_file = Some text →
  PyStr.readlines (PyStr.universal_newlines text) = first :: lines →
  discovery ctx = Raise e →
  lint_licenses ctx verbose w = (printed ["Verify licenses"] w, Raise e).
Proof.
  intros Hf Hl Hd. unfold lint_licenses.
  rewrite (bind_ret _ _ _ _ _ (print_run _ _)).
  rewrite (bind_ret _ _ _ _ _
             (read_licenses_run _ (printed _ w) _ _ _ Hf Hl)).
  by rewrite bind_run, get_licenses_list_run, Hd.
Qed.

(** X1: the audit changes no file: whatever its outcome, the world it
    leaves is the world it found with more lines printed. *)
Theorem lint_licenses_read_only (ctx : Ctx) (verbose : bool) (w : World) :
  ∃ out, (lint_licenses ctx verbose w).1 = printed out w.
Proof.
  destruct (files w !! manifest_file) as [text|] eqn:Hf.
  2: { rewrite lint_licenses_no_file by done. by eexists. }
  destruct (PyStr.readlines (PyStr.universal_newlines text))
    as [|first lines] eqn:Hl.
  { rewrite (lint_licenses_no_line _ _ _ text) by done. by eexists. }
  destruct (discovery ctx) as [new_licenses|e] eqn:Hd.
  - rewrite (lint_licenses_run ctx verbose w text first lines new_licenses)
      by done.
    case_bool_decide; by eexists.
  - rewrite (lint_licenses_no_discovery _ _ _ text first lines e) by done.
    by eexists.
Qed.

(** X2: the failures of the audit before any comparison. Without the
    manifest file it raises [IOError]; on a manifest without any line,
    [StopIteration] from [next(f)]; when the manifest is read and
    discovery fails, the error of discovery. In each case only the first
    line of the report was printed. *)
Theorem lint_licenses_failures (ctx : Ctx) (verbose : bool) (w : World) :
  (files w !! manifest_file = None →
   lint_licenses ctx verbose w
   = (printed ["Verify licenses"] w, Raise (IOError manifest_file)))
  ∧ (files w !! manifest_file = Some "" →
     lint_licenses ctx verbose w
     = (printed ["Verify licenses"] w, Raise StopIteration))
  ∧ (∀ text first lines e,
       files w !! manifest_file = Some text →
       PyStr.readlines (PyStr.universal_newlines text) = first :: lines →
       get_licenses_list ctx w = (w, Raise e) →
       lint_licenses ctx verbose w = (printed ["Verify licenses"] w, Raise e)).
Proof.
  split; [|split].
  - apply lint_licenses_no_file.
  - intros Hf. by apply (lint_licenses_no_line _ _ _ "").
  - intros text first lines e Hf Hl Hd. rewrite get_licenses_list_run in Hd.
    apply (lint_licenses_no_discovery _ _ _ text first lines); [done..|].
    congruence.
Qed.

Lemma lint_licenses_failures_witness :
  lint_licenses failing_ctx false empty_world
  = (printed ["Verify licenses"] empty_world, Raise (IOError manifest_file))
  ∧ lint_licenses failing_ctx false
      (mkWorld {[ manifest_file := "" ]} "linux" [])
    = (printed ["Verify licenses"]
         (mkWorld {[ manifest_file := "" ]} "linux" []), Raise StopIteration)
  ∧ lint_licenses failing_ctx false (recorded [bootstrap])
    = (printed ["Verify licenses"] (recorded [bootstrap]),
       Raise UnexpectedExit).
Proof.
  split; [|split].
  - by apply (proj1 (lint_licenses_failures failing_ctx false empty_world)).
  - by apply (proj1 (proj2 (lint_licenses_failures failing_ctx false
                              (mkWorld {[ manifest_file := "" ]} "linux" [])))).
  - apply (proj2 (proj2 (lint_licenses_failures failing_ctx false
                           (recorded [bootstrap])))
             (manifest_text [bootstrap]) (header +:+ String newline "")
             [bootstrap +:+ String newline ""]); reflexivity.
Defined.

(** X3: the report of the audit, when the manifest is read and discovery
    succeeds: after the first line (and, on Windows with [verbose], the
    ignored rows), one line [+ row] for each discovered row that is not
    recorded, in the order of discovery, then one line [- row] for each
    recorded row that is not discovered, in the order of the manifest,
    then the verdict. *)
Theorem lint_licenses_report (ctx : Ctx) (verbose : bool) (w : World)
    (text first : string) (lines new_licenses : list string) :
  files w !! manifest_file = Some text →
  PyStr.readlines (PyStr.universal_newlines text) = first :: lines →
  get_licenses_list ctx w = (w, Ret new_licenses) →
  let licenses := compared_licenses (platform w) (PyStr.rstrip <$> lines) in
  let removed := removed_licenses licenses new_licenses in
  let added := added_licenses licenses new_licenses in
  stdout (lint_licenses ctx verbose w).1
  = stdout w
    ++ ["Verify licenses"]
    ++ hack_log (platform w) verbose (PyStr.rstrip <$> lines)
    ++ ((λ l, "+ " +:+ l) <$> removed)
    ++ ((λ l, "- " +:+ l) <$> added)
    ++ [if bool_decide (removed = [] ∧ added = [])
        then "licenses ok" else "licenses are not up-to-date"].
Proof.
  intros Hf Hl Hd licenses removed added.
  rewrite get_licenses_list_run in Hd.
  assert (Hd' : discovery ctx = Ret new_licenses) by congruence.
  rewrite (lint_licenses_run ctx verbose w text first lines new_licenses Hf Hl Hd').
  fold licenses. fold removed. fold added.
  by case_bool_decide.
Qed.

Lemma lint_licenses_report_witness :
  stdout (lint_licenses (plain_ctx found_license_line) false
            (recorded [row_A; bootstrap])).1
  = ["Verify licenses"; "+ core,github.com/foo,MIT";
     "- core,github.com/bar,Apache-2.0"; "licenses are not up-to-date"].
Proof.
  rewrite (lint_licenses_report (plain_ctx found_license_line) false
             (recorded [row_A; bootstrap])
             (manifest_text [row_A; bootstrap])
             (header +:+ String newline "")
             [row_A +:+ String newline ""; bootstrap +:+ String newline ""]
             [bootstrap; row_C] eq_refl eq_refl eq_refl).
  vm_compute. reflexivity.
Defined.

(** ** The hack for Windows *)

Lemma filter_ext_elem {A} (P Q : A → Prop) `{!∀ x, Decision (P x)}
    `{!∀ x, Decision (Q x)} (l : list A) :
  (∀ x, x ∈ l → (P x ↔ Q x)) → filter P l = filter Q l.
Proof.
  induction l as [|x l IH]; intros Hext; [done|].
  assert (Hl : filter P l = filter Q l).
  { apply IH. intros y Hy. apply Hext. by right. }
  destruct (decide (P x)) as [HP|HP].
  - rewrite (filter_cons_True P), (filter_cons_True Q), Hl; try done.
    apply Hext; [left|done].
  - rewrite (filter_cons_False P), (filter_cons_False Q), Hl; try done.
    intros HQ. apply HP, Hext; [left|done].
Qed.

Lemma compared_licenses_win32 licenses :
  compared_licenses "win32" licenses
  = filter (λ row, PyStr.contains gopsutil row = false) licenses.
Proof.
  unfold compared_licenses. simpl. apply filter_ext_elem.
  intros row Hrow. unfold to_removed. rewrite list_elem_of_filter.
  fold gopsutil. destruct (PyStr.contains gopsutil row); split; try done.
  - intros H. exfalso. by apply H.
  - intros _ [? _]. done.
Qed.

(** X4: the hack for Windows takes out every recorded row that holds the
    ignored package as a substring and keeps the others in their order;
    so on Windows a row that holds it is never reported as extra, and a
    discovered row that holds it is reported as missing, recorded or
    not. *)
Theorem hack_windows_drops_gopsutil (verbose : bool)
    (licenses new_licenses : list string) (w : World) :
  (∃ out, hack_windows verbose licenses w
          = (printed out w,
             Ret (filter (λ row, PyStr.contains gopsutil row = false) licenses)))
  ∧ Forall (λ ele, PyStr.contains gopsutil ele = false)
           (added_licenses (compared_licenses "win32" licenses) new_licenses)
  ∧ Forall (λ ele, ele ∈ removed_licenses (compared_licenses "win32" licenses)
                                          new_licenses)
           (filter (λ ele, PyStr.contains gopsutil ele = true) new_licenses).
Proof.
  split; [|split].
  - rewrite hack_windows_run, compared_licenses_win32. by eexists.
  - rewrite compared_licenses_win32. apply Forall_forall. intros ele Hele.
    apply elem_of_added in Hele as [Hele _].
    by apply list_elem_of_filter in Hele as [? _].
  - rewrite compared_licenses_win32. apply Forall_forall. intros ele Hele.
    apply list_elem_of_filter in Hele as [Hc Hin].
    apply elem_of_removed. split; [done|].
    intros [Hn _]%list_elem_of_filter. congruence.
Qed.

(** ** Regenerating and then auditing *)



(** ** The first line of the manifest *)

Lemma universal_newlines_first_line h body :
  has_char "013" h = false →
  PyStr.universal_newlines (h +:+ String newline body)
  = h +:+ String newline (PyStr.universal_newlines body).
Proof.
  induction h as [|a h IH]; [done|].
  simpl has_char. intros [Ha Hh]%orb_false_elim.
  rewrite !append_cons. simpl. by rewrite Ha, (IH Hh).
Qed.

Lemma lint_licenses_result ctx verbose w text first lines :
  files w !! manifest_file = Some text →
  PyStr.readlines (PyStr.universal_newlines text) = first :: lines →
  (lint_licenses ctx verbose w).2
  = match discovery ctx with
    | Ret new_licenses =>
        let licenses :=
          compared_licenses (platform w) (PyStr.rstrip <$> lines) in
        if bool_decide (removed_licenses licenses new_licenses = []
                        ∧ added_licenses licenses new_licenses = [])
        then Ret () else Raise (Exit NoMessage 1)
    | Raise e => Raise e
    end.
Proof.
  intros Hf Hl. destruct (discovery ctx) as [new_licenses|e] eqn:Hd.
  - rewrite (lint_licenses_run ctx verbose w text first lines new_licenses)
      by done.
    cbv zeta. by case_bool_decide.
  - by rewrite (lint_licenses_no_discovery _ _ _ text first lines e).
Qed.

(** X15: the audit skips the first line of the manifest without looking
    at it: two manifests that differ in their first line only get the
    same outcome. *)
Theorem header_row_not_checked (ctx : Ctx) (verbose : bool) (w : World)
    (h1 h2 body : string) :
  has_char "010" h1 = false → has_char "013" h1 = false →
  has_char "010" h2 = false → has_char "013" h2 = false →
  (lint_licenses ctx verbose (with_manifest (h1 +:+ String newline body) w)).2
  = (lint_licenses ctx verbose
       (with_manifest (h2 +:+ String newline body) w)).2.
Proof.
  intros Hn1 Hr1 Hn2 Hr2.
  rewrite (lint_licenses_result ctx verbose _ (h1 +:+ String newline body)
             (h1 +:+ String newline "")
             (PyStr.readlines (PyStr.universal_newlines body)));
    [| apply lookup_insert_eq
     | by rewrite universal_newlines_first_line, readlines_row ].
  rewrite (lint_licenses_result ctx verbose _ (h2 +:+ String newline body)
             (h2 +:+ String newline "")
             (PyStr.readlines (PyStr.universal_newlines body)));
    [| apply lookup_insert_eq
     | by rewrite universal_newlines_first_line, readlines_row ].
  reflexivity.
Qed.

Lemma header_row_not_checked_witness :
  (lint_licenses (plain_ctx "") false
     (with_manifest (bootstrap +:+ String newline (rows_text [bootstrap]))
        empty_world)).2
  = (lint_licenses (plain_ctx "") false
       (with_manifest (header +:+ String newline (rows_text [bootstrap]))
          empty_world)).2.
Proof.
  by apply (header_row_not_checked (plain_ctx "") false empty_world
              bootstrap header (rows_text [bootstrap])).
Defined.

(** ** More on discovery *)

(** X6: when discovery returns, its list is a rearrangement of the
    bootstrap entry and the entries of every line of the output, each
    line giving one entry for each of its [package=] tokens: no entry is
    dropped and equal entries are kept as many times as they come. *)
Theorem get_licenses_list_entries (ctx : Ctx) (w : World) (gp : string)
    (res : RunResult) :
  gopath ctx = Ret gp →
  run_outcome ctx (wwhrd_command gp) = Ret res →
  ∃ l, get_licenses_list ctx w = (w, Ret l)
     ∧ l ≡ₚ bootstrap :: (PyStr.split newline (stderr res) ≫= line_entries)
     ∧ length l
       = S (sum_list ((λ line, length (line_entries line))
                        <$> PyStr.split newline (stderr res))).
Proof.
  intros Hgp Hrun. eexists. split; [|split].
  - rewrite get_licenses_list_run, (discovery_ok _ _ _ Hgp Hrun). reflexivity.
  - by rewrite sort_perm, scan_stderr_eq.
  - rewrite sort_perm, scan_stderr_eq. simpl. f_equal.
    induction (PyStr.split newline (stderr res)) as [|line lines IH]; [done|].
    by rewrite bind_cons, length_app, fmap_cons, IH.
Qed.

Lemma get_licenses_list_entries_witness :
  ∃ l, get_licenses_list (plain_ctx repeated_output) empty_world
       = (empty_world, Ret l)
     ∧ l ≡ₚ [bootstrap; row_C; row_C] ∧ length l = 3%nat.
Proof.
  apply (get_licenses_list_entries (plain_ctx repeated_output) empty_world
           "/go" (mkRunResult repeated_output) eq_refl eq_refl).
Defined.

(** X16: the list of discovery does not depend on the order of the lines
    of the output: two outputs with the same lines in any order give the
    same list. *)
Theorem discovery_order_irrelevant (ctx1 ctx2 : Ctx) (w : World)
    (gp1 gp2 : string) (res1 res2 : RunResult) :
  gopath ctx1 = Ret gp1 → run_outcome ctx1 (wwhrd_command gp1) = Ret res1 →
  gopath ctx2 = Ret gp2 → run_outcome ctx2 (wwhrd_command gp2) = Ret res2 →
  PyStr.split newline (stderr res1) ≡ₚ PyStr.split newline (stderr res2) →
  get_licenses_list ctx1 w = get_licenses_list ctx2 w.
Proof.
  intros Hgp1 Hrun1 Hgp2 Hrun2 Hperm.
  rewrite !get_licenses_list_run.
  rewrite (discovery_ok _ _ _ Hgp1 Hrun1), (discovery_ok _ _ _ Hgp2 Hrun2).
  do 2 f_equal. apply sort_unique; [apply sort_sorted|].
  rewrite sort_perm, !scan_stderr_eq. by rewrite Hperm.
Qed.

Lemma discovery_order_irrelevant_witness :
  get_licenses_list (plain_ctx two_lines_output) empty_world
  = get_licenses_list (plain_ctx two_lines_swapped) empty_world.
Proof.
  apply (discovery_order_irrelevant (plain_ctx two_lines_output)
           (plain_ctx two_lines_swapped) empty_world "/go" "/go"
           (mkRunResult two_lines_output) (mkRunResult two_lines_swapped)
           eq_refl eq_refl eq_refl eq_refl).
  apply perm_swap.
Defined.

(** ** The outcome of the legacy audit *)

Section LegacyOutcome.

Variable DictReader : string → list Row.

Lemma check_entries_ok (rows : list Row) (recs : list (string * string))
    (license_deps : gset string) (w : World) :
  Forall2 (λ entry rec, getitem entry "License" = Str rec.1 ∧ rec.1 ≠ ""
                        ∧ getitem entry "Origin" = Str rec.2) rows recs →
  for_acc rows license_deps check_entry w
  = (printed (dep_name <$> recs.*2) w,
     Ret (list_to_set (dep_name <$> recs.*2) ∪ license_deps)).
Proof.
  intros Hrows. revert license_deps w.
  induction Hrows as [|entry [lic origin] rows recs (Hlic & Hne & Horigin) _ IH];
    intros license_deps w.
  - simpl. rewrite printed_nil. by rewrite (left_id_L ∅ (∪)).
  - simpl in Hlic, Hne, Horigin. simpl for_acc. rewrite bind_run.
    unfold check_entry at 1. rewrite Hlic.
    destruct (PyStr.len lic =? 0) eqn:Hlen; [by apply len_zero in Hlen|].
    rewrite Horigin, (bind_ret _ _ _ _ _ (print_run _ _)).
    cbn [mret M_ret]. cbv beta iota. rewrite IH, printed_printed.
    rewrite !fmap_cons. cbn [snd list_to_set app].
    do 2 f_equal.
    rewrite (comm_L (∪) {[dep_name origin]} (list_to_set _)).
    by rewrite (assoc_L (∪)).
Qed.

(** X12: the legacy audit on a manifest whose entries all have an origin
    and a license that is not empty: it prints the name of each entry and
    returns normally exactly when the set of these names is the set of
    the modules of [go.sum] with the three dependencies that are not Go
    modules; otherwise it ends with [Exit(code=1)], the message holding
    the two differences. *)
Theorem lint_licenses_old_outcome (ctx : Ctx) (w : World)
    (gosum text : string) (recs : list (string * string)) :
  files w !! "go.sum" = Some gosum →
  files w !! manifest_file = Some text →
  Forall2 (λ entry rec, getitem entry "License" = Str rec.1 ∧ rec.1 ≠ ""
                        ∧ getitem entry "Origin" = Str rec.2)
          (DictReader (PyStr.universal_newlines text)) recs →
  let deps :=
    read_go_deps (PyStr.readlines (PyStr.universal_newlines gosum))
    ∪ NON_GO_DEPS in
  let license_deps : gset string := list_to_set (dep_name <$> recs.*2) in
  lint_licenses_old DictReader ctx w
  = (printed (dep_name <$> recs.*2) w,
     if bool_decide (deps = license_deps) then Ret ()
     else Raise (Exit (Outdated (deps ∖ license_deps) (license_deps ∖ deps)) 1)).
Proof.
  intros Hsum Hfile Hrows deps license_deps.
  unfold lint_licenses_old.
  rewrite bind_run. unfold open_read at 1. rewrite Hsum.
  rewrite bind_run. unfold open_read at 1. fold manifest_file. rewrite Hfile.
  rewrite (bind_ret _ _ _ _ _ (check_entries_ok _ _ ∅ w Hrows)).
  rewrite (right_id_L ∅ (∪)). fold deps. fold license_deps.
  case_bool_decide as Hne; case_bool_decide as Heq; try done.
Qed.

End LegacyOutcome.

Lemma lint_licenses_old_outcome_witness :
  lint_licenses_old comma_reader (plain_ctx "") non_go_world
  = (printed [ "github.com/codemirror/CodeMirror";
               "github.com/FortAwesome/Font-Awesome";
               "github.com/jquery/jquery" ] non_go_world, Ret ()).
Proof.
  rewrite (lint_licenses_old_outcome comma_reader (plain_ctx "") non_go_world
             "" non_go_manifest
             [ ("MIT", "github.com/codemirror/CodeMirror/lib");
               ("OFL-1.1", "github.com/FortAwesome/Font-Awesome");
               ("MIT", "github.com/jquery/jquery") ] eq_refl eq_refl);
    [|repeat constructor; simpl; try reflexivity; discriminate].
  rewrite bool_decide_eq_true_2; [reflexivity|]. vm_compute. reflexivity.
Defined.

(** ** Regenerating over a previous manifest *)

